(** * FFmpegCapture: a shallow embedding of the screen recorder

    The program of [src/FFmpegCapture.cpp] is one class, [ScreenRecorder],
    driven by [main].  It is a sequence of calls into two outside worlds:
    the Windows GDI/user API and the FFmpeg libraries.  This development
    models

    - the members of [ScreenRecorder] and the library objects they point
      to as one record, [World], passed from statement to statement;
    - everything the outside decides (screen size, key state, what the
      encoder emits, which calls fail) as one record of oracles, [Env];
    - every outside call as an entry of a call trace, in program order.

    Machine integers are [Z] with their wrap-around written out.  Calls
    whose result the source ignores are taken to succeed, except
    [avcodec_open2], whose failure is an input of the model. *)

From stdpp Require Import base numbers list option.
From Stdlib Require Import ZArith QArith Lia.

Open Scope Z_scope.

(** ** Machine integers *)

Definition wrap_signed (bits x : Z) : Z :=
  (x + 2 ^ (bits - 1)) mod 2 ^ bits - 2 ^ (bits - 1).

(** [int] of the source: 32 bits, two's complement. *)
Definition int32 (x : Z) : Z := wrap_signed 32 x.

(** [int64_t] of the source. *)
Definition int64 (x : Z) : Z := wrap_signed 64 x.

(** Conversion of an [int] to [size_t] (64 bits, unsigned), as done by the
    comparison and the call of [resize] in [CaptureFrame]. *)
Definition to_size_t (x : Z) : Z := x mod 2 ^ 64.

Arguments wrap_signed : simpl never.
Arguments int32 : simpl never.
Arguments int64 : simpl never.
Arguments to_size_t : simpl never.

(** ** Constants of the source *)

Definition FPS : Z := 30.
Definition FRAME_DELAY : Z := int32 (1000 ÷ FPS).
Definition REGION_BORDER : Z := 8. (* declared by the source, never used *)

Definition SM_CXSCREEN : Z := 0.
Definition SM_CYSCREEN : Z := 1.
Definition CURSOR_SHOWING : Z := 1.
Definition AV_NOPTS_VALUE : Z := - 2 ^ 63.

(** ** Library data *)

Abbreviation byte := Byte.byte.

Record AVRational := { num : Z; den : Z }.

Record AVPacket := {
  pts : Z;
  dts : Z;
  duration : Z;
  stream_index : Z;
  data : list byte
}.

Record AVFrame := {
  f_format : Z;
  f_width : Z;
  f_height : Z;
  f_pts : Z;
  f_data : list byte
}.

Record AVStream := {
  index : Z;
  st_time_base : AVRational
}.

(** The encoder behind [codec_ctx].  [cc_sent] is the history of
    [avcodec_send_frame] arguments the encoder accepted ([None] is the
    null frame); [cc_ready] are the packets [avcodec_receive_packet] will
    hand out before it reports that it has none. *)
Record AVCodecContext := {
  cc_width : Z;
  cc_height : Z;
  time_base : AVRational;
  pix_fmt : Z;
  bit_rate : Z;
  cc_open : bool;
  cc_sent : list (option AVFrame);
  cc_ready : list AVPacket
}.

(** The muxer behind [fmt_ctx]: the open state of [pb] and what has been
    written to the file so far. *)
Record AVFormatContext := {
  pb_open : bool;
  header_written : bool;
  written : list AVPacket;
  trailer_written : bool
}.

Definition AV_PIX_FMT_YUV420P : Z := 0.

(** A C++ pointer member: never assigned, null, or pointing to its object. *)
Inductive ptr := Indeterminate | Null | Valid.

Definition is_null (p : ptr) : bool :=
  match p with Null => true | _ => false end.

(** ** Outside calls *)

Inductive GdiObject := Bitmap | Brush | IconColor | IconMask.

Module Call.
Inductive t :=
(* Windows *)
| GetDC
| CreateCompatibleDC
| CreateCompatibleBitmap (w h : Z)
| SelectObject
| BitBlt (w h : Z)
| CreateSolidBrush
| FrameRect (w h : Z)
| DeleteObject (o : GdiObject)
| GetIconInfo
| DrawIconEx (x y : Z)
| GetDIBits (bytes : Z) (buffer_size : Z)
| DeleteDC
| ReleaseDC
(* the C++ runtime *)
| resize (n : Z)
| sleep_until (deadline now : Z)
(* FFmpeg *)
| av_log_set_level
| avformat_alloc_output_context2
| avformat_new_stream
| avcodec_alloc_context3
| avcodec_open2
| sws_getContext
| av_frame_alloc
| av_frame_get_buffer
| avio_open
| avformat_write_header
| sws_scale
| avcodec_send_frame (frame_pts : option Z)
| av_packet_alloc
| av_packet_rescale_ts
| av_interleaved_write_frame (pkt : AVPacket)
| av_packet_unref
| av_packet_free
| av_write_trailer
| avcodec_free_context
| avformat_free_context
| sws_freeContext
| av_frame_free.
End Call.

(** ** What the outside decides *)

Record CURSORINFO := { ci_flags : Z; ci_x : Z; ci_y : Z }.
Record ICONINFO := { xHotspot : Z; yHotspot : Z }.

Record Env := {
  (* Windows *)
  GetSystemMetrics : Z -> Z;
  (** result of the n-th poll of the escape key, n counted from 0 *)
  GetAsyncKeyState : nat -> Z;
  (** cursor state during the n-th capture ([None]: the call fails) *)
  GetCursorInfo : nat -> option CURSORINFO;
  GetIconInfo : nat -> option ICONINFO;
  (** the bytes [GetDIBits] delivers for the n-th capture *)
  screen_bits : nat -> list byte;
  (* time, in milliseconds *)
  steady_clock_now : Z;
  (** how long capture and encoding of the n-th frame take *)
  busy : nat -> Z;
  (** how much later than asked the n-th sleep returns *)
  oversleep : nat -> Z;
  (* FFmpeg *)
  alloc_output_context_ok : bool;
  find_encoder_ok : bool;
  new_stream_ok : bool;
  avcodec_open2_ret : Z;
  avio_open_ret : Z;
  (** the stream time base the muxer settles on in [avformat_write_header] *)
  mux_time_base : AVRational;
  (** the packets that become ready after a send, given all sends so far *)
  encoder : list (option AVFrame) -> list AVPacket;
  av_rescale_q : Z -> AVRational -> AVRational -> Z;
  sws_convert : list byte -> Z -> Z -> list byte
}.

(** ** The recorder and the objects it owns *)

Record World := {
  (* members of ScreenRecorder *)
  width : Z;
  height : Z;
  sws_ctx : ptr;
  codec_ctx : ptr;
  fmt_ctx : ptr;
  stream : ptr;
  frame : ptr;
  captureBuffer : list byte;
  pts_counter : Z;
  (* the objects behind the pointers *)
  codec : AVCodecContext;
  fmt : AVFormatContext;
  strm : AVStream;
  frm : AVFrame;
  (* the calls made so far *)
  trace : list Call.t
}.

(** Assignment to one member; the others keep their value. *)

Definition set_width (v : Z) (w : World) : World :=
  {| width := v; height := height w; sws_ctx := sws_ctx w;
     codec_ctx := codec_ctx w; fmt_ctx := fmt_ctx w; stream := stream w;
     frame := frame w; captureBuffer := captureBuffer w;
     pts_counter := pts_counter w; codec := codec w; fmt := fmt w;
     strm := strm w; frm := frm w; trace := trace w |}.

Definition set_height (v : Z) (w : World) : World :=
  {| width := width w; height := v; sws_ctx := sws_ctx w;
     codec_ctx := codec_ctx w; fmt_ctx := fmt_ctx w; stream := stream w;
     frame := frame w; captureBuffer := captureBuffer w;
     pts_counter := pts_counter w; codec := codec w; fmt := fmt w;
     strm := strm w; frm := frm w; trace := trace w |}.

Definition set_sws_ctx (v : ptr) (w : World) : World :=
  {| width := width w; height := height w; sws_ctx := v;
     codec_ctx := codec_ctx w; fmt_ctx := fmt_ctx w; stream := stream w;
     frame := frame w; captureBuffer := captureBuffer w;
     pts_counter := pts_counter w; codec := codec w; fmt := fmt w;
     strm := strm w; frm := frm w; trace := trace w |}.

Definition set_codec_ctx (v : ptr) (w : World) : World :=
  {| width := width w; height := height w; sws_ctx := sws_ctx w;
     codec_ctx := v; fmt_ctx := fmt_ctx w; stream := stream w;
     frame := frame w; captureBuffer := captureBuffer w;
     pts_counter := pts_counter w; codec := codec w; fmt := fmt w;
     strm := strm w; frm := frm w; trace := trace w |}.

Definition set_fmt_ctx (v : ptr) (w : World) : World :=
  {| width := width w; height := height w; sws_ctx := sws_ctx w;
     codec_ctx := codec_ctx w; fmt_ctx := v; stream := stream w;
     frame := frame w; captureBuffer := captureBuffer w;
     pts_counter := pts_counter w; codec := codec w; fmt := fmt w;
     strm := strm w; frm := frm w; trace := trace w |}.

Definition set_stream (v : ptr) (w : World) : World :=
  {| width := width w; height := height w; sws_ctx := sws_ctx w;
     codec_ctx := codec_ctx w; fmt_ctx := fmt_ctx w; stream := v;
     frame := frame w; captureBuffer := captureBuffer w;
     pts_counter := pts_counter w; codec := codec w; fmt := fmt w;
     strm := strm w; frm := frm w; trace := trace w |}.

Definition set_frame (v : ptr) (w : World) : World :=
  {| width := width w; height := height w; sws_ctx := sws_ctx w;
     codec_ctx := codec_ctx w; fmt_ctx := fmt_ctx w; stream := stream w;
     frame := v; captureBuffer := captureBuffer w;
     pts_counter := pts_counter w; codec := codec w; fmt := fmt w;
     strm := strm w; frm := frm w; trace := trace w |}.

Definition set_captureBuffer (v : list byte) (w : World) : World :=
  {| width := width w; height := height w; sws_ctx := sws_ctx w;
     codec_ctx := codec_ctx w; fmt_ctx := fmt_ctx w; stream := stream w;
     frame := frame w; captureBuffer := v; pts_counter := pts_counter w;
     codec := codec w; fmt := fmt w; strm := strm w; frm := frm w;
     trace := trace w |}.

Definition set_pts_counter (v : Z) (w : World) : World :=
  {| width := width w; height := height w; sws_ctx := sws_ctx w;
     codec_ctx := codec_ctx w; fmt_ctx := fmt_ctx w; stream := stream w;
     frame := frame w; captureBuffer := captureBuffer w; pts_counter := v;
     codec := codec w; fmt := fmt w; strm := strm w; frm := frm w;
     trace := trace w |}.

Definition set_codec (v : AVCodecContext) (w : World) : World :=
  {| width := width w; height := height w; sws_ctx := sws_ctx w;
     codec_ctx := codec_ctx w; fmt_ctx := fmt_ctx w; stream := stream w;
     frame := frame w; captureBuffer := captureBuffer w;
     pts_counter := pts_counter w; codec := v; fmt := fmt w; strm := strm w;
     frm := frm w; trace := trace w |}.

Definition set_fmt (v : AVFormatContext) (w : World) : World :=
  {| width := width w; height := height w; sws_ctx := sws_ctx w;
     codec_ctx := codec_ctx w; fmt_ctx := fmt_ctx w; stream := stream w;
     frame := frame w; captureBuffer := captureBuffer w;
     pts_counter := pts_counter w; codec := codec w; fmt := v; strm := strm w;
     frm := frm w; trace := trace w |}.

Definition set_strm (v : AVStream) (w : World) : World :=
  {| width := width w; height := height w; sws_ctx := sws_ctx w;
     codec_ctx := codec_ctx w; fmt_ctx := fmt_ctx w; stream := stream w;
     frame := frame w; captureBuffer := captureBuffer w;
     pts_counter := pts_counter w; codec := codec w; fmt := fmt w; strm := v;
     frm := frm w; trace := trace w |}.

Definition set_frm (v : AVFrame) (w : World) : World :=
  {| width := width w; height := height w; sws_ctx := sws_ctx w;
     codec_ctx := codec_ctx w; fmt_ctx := fmt_ctx w; stream := stream w;
     frame := frame w; captureBuffer := captureBuffer w;
     pts_counter := pts_counter w; codec := codec w; fmt := fmt w;
     strm := strm w; frm := v; trace := trace w |}.

Definition set_trace (v : list Call.t) (w : World) : World :=
  {| width := width w; height := height w; sws_ctx := sws_ctx w;
     codec_ctx := codec_ctx w; fmt_ctx := fmt_ctx w; stream := stream w;
     frame := frame w; captureBuffer := captureBuffer w;
     pts_counter := pts_counter w; codec := codec w; fmt := fmt w;
     strm := strm w; frm := frm w; trace := v |}.

Definition emit (e : Call.t) (w : World) : World :=
  set_trace (trace w ++ [e]) w.

Definition set_cc_open (b : bool) (c : AVCodecContext) : AVCodecContext :=
  {| cc_width := cc_width c; cc_height := cc_height c;
     time_base := time_base c; pix_fmt := pix_fmt c; bit_rate := bit_rate c;
     cc_open := b; cc_sent := cc_sent c; cc_ready := cc_ready c |}.

Definition set_cc_queue (sent : list (option AVFrame))
    (ready : list AVPacket) (c : AVCodecContext) : AVCodecContext :=
  {| cc_width := cc_width c; cc_height := cc_height c;
     time_base := time_base c; pix_fmt := pix_fmt c; bit_rate := bit_rate c;
     cc_open := cc_open c; cc_sent := sent; cc_ready := ready |}.

Definition set_written (l : list AVPacket) (m : AVFormatContext)
    : AVFormatContext :=
  {| pb_open := pb_open m; header_written := header_written m;
     written := l; trailer_written := trailer_written m |}.

Definition set_trailer_written (b : bool) (m : AVFormatContext)
    : AVFormatContext :=
  {| pb_open := pb_open m; header_written := header_written m;
     written := written m; trailer_written := b |}.

Definition set_f_pts (v : Z) (f : AVFrame) : AVFrame :=
  {| f_format := f_format f; f_width := f_width f; f_height := f_height f;
     f_pts := v; f_data := f_data f |}.

Definition set_f_data (v : list byte) (f : AVFrame) : AVFrame :=
  {| f_format := f_format f; f_width := f_width f; f_height := f_height f;
     f_pts := f_pts f; f_data := v |}.

(** ** The FFmpeg calls the recorder makes *)

(** [av_packet_rescale_ts], as libavcodec defines it over [av_rescale_q]:
    unset timestamps stay unset, a duration is rescaled when positive. *)
Definition av_packet_rescale_ts (env : Env) (p : AVPacket)
    (src dst : AVRational) : AVPacket :=
  {| pts := if pts p =? AV_NOPTS_VALUE then pts p
            else av_rescale_q env (pts p) src dst;
     dts := if dts p =? AV_NOPTS_VALUE then dts p
            else av_rescale_q env (dts p) src dst;
     duration := if 0 <? duration p
                 then av_rescale_q env (duration p) src dst
                 else duration p;
     stream_index := stream_index p;
     data := data p |}.

Definition set_stream_index (i : Z) (p : AVPacket) : AVPacket :=
  {| pts := pts p; dts := dts p; duration := duration p;
     stream_index := i; data := data p |}.

(** An encoder that was not opened rejects the frame. *)
Definition avcodec_send_frame (env : Env) (f : option AVFrame)
    (w : World) : World :=
  let w := emit (Call.avcodec_send_frame (f_pts <$> f)) w in
  let c := codec w in
  if cc_open c then
    let sent := cc_sent c ++ [f] in
    set_codec (set_cc_queue sent (cc_ready c ++ encoder env sent) c) w
  else w.

(** [Some] is return value 0 together with the packet; [None] is any
    other return value. *)
Definition avcodec_receive_packet (c : AVCodecContext)
    : option (AVPacket * AVCodecContext) :=
  if cc_open c then
    match cc_ready c with
    | pkt :: rest => Some (pkt, set_cc_queue (cc_sent c) rest c)
    | [] => None
    end
  else None.

(** One video stream: the muxer appends in arrival order. *)
Definition av_interleaved_write_frame (pkt : AVPacket) (w : World) : World :=
  let w := set_fmt (set_written (written (fmt w) ++ [pkt]) (fmt w)) w in
  emit (Call.av_interleaved_write_frame pkt) w.

Definition av_write_trailer (w : World) : World :=
  let w := set_fmt (set_trailer_written true (fmt w)) w in
  emit Call.av_write_trailer w.

(** [while (avcodec_receive_packet(codec_ctx, pkt) == 0) body]. *)
Fixpoint receive_loop (body : AVPacket -> World -> World) (fuel : nat)
    (w : World) : World :=
  match fuel with
  | O => w
  | S fuel =>
      match avcodec_receive_packet (codec w) with
      | Some (pkt, c) => receive_loop body fuel (body pkt (set_codec c w))
      | None => w
      end
  end.

(** The body never sends, so the packets ready at entry bound the number
    of rounds. *)
Definition while_receive_packet (body : AVPacket -> World -> World)
    (w : World) : World :=
  receive_loop body (S (length (cc_ready (codec w)))) w.

(** ** ScreenRecorder *)

Definition blank_codec : AVCodecContext :=
  {| cc_width := 0; cc_height := 0; time_base := {| num := 0; den := 1 |};
     pix_fmt := -1; bit_rate := 0; cc_open := false; cc_sent := [];
     cc_ready := [] |}.

Definition blank_fmt : AVFormatContext :=
  {| pb_open := false; header_written := false; written := [];
     trailer_written := false |}.

Definition blank_frame : AVFrame :=
  {| f_format := -1; f_width := 0; f_height := 0; f_pts := AV_NOPTS_VALUE;
     f_data := [] |}.

(** The constructor: three pointers are set to null, [stream] and [frame]
    are not mentioned, [pts_counter] starts at 0. *)
Definition ScreenRecorder : World :=
  {| width := 0; height := 0;
     sws_ctx := Null; codec_ctx := Null; fmt_ctx := Null;
     stream := Indeterminate; frame := Indeterminate;
     captureBuffer := []; pts_counter := 0;
     codec := blank_codec; fmt := blank_fmt;
     strm := {| index := 0; st_time_base := {| num := 0; den := 1 |} |};
     frm := blank_frame; trace := [] |}.

Definition Initialize (env : Env) (w : World) : bool * World :=
  let w := set_width (int32 (GetSystemMetrics env SM_CXSCREEN)) w in
  let w := set_height (int32 (GetSystemMetrics env SM_CYSCREEN)) w in
  let w := emit Call.avformat_alloc_output_context2 w in
  let w := set_fmt_ctx (if alloc_output_context_ok env then Valid else Null) w in
  if is_null (fmt_ctx w) then (false, w) else
  if negb (find_encoder_ok env) then (false, w) else
  let w := emit Call.avformat_new_stream w in
  let w := set_stream (if new_stream_ok env then Valid else Null) w in
  if is_null (stream w) then (false, w) else
  let w := set_strm {| index := 0;
                       st_time_base := {| num := 1; den := 90000 |} |} w in
  let w := emit Call.avcodec_alloc_context3 w in
  let w := set_codec_ctx Valid w in
  let w := set_codec {| cc_width := width w; cc_height := height w;
                        time_base := {| num := 1; den := FPS |};
                        pix_fmt := AV_PIX_FMT_YUV420P;
                        bit_rate := 4000000; cc_open := false;
                        cc_sent := []; cc_ready := [] |} w in
  let w := emit Call.avcodec_open2 w in
  let w := set_codec (set_cc_open (0 <=? avcodec_open2_ret env) (codec w)) w in
  let w := emit Call.sws_getContext w in
  let w := set_sws_ctx Valid w in
  let w := emit Call.av_frame_alloc w in
  let w := set_frame Valid w in
  let w := set_frm {| f_format := pix_fmt (codec w);
                      f_width := cc_width (codec w);
                      f_height := cc_height (codec w);
                      f_pts := AV_NOPTS_VALUE; f_data := [] |} w in
  let w := emit Call.av_frame_get_buffer w in
  let w := emit Call.avio_open w in
  if avio_open_ret env <? 0 then (false, w) else
  let w := set_fmt {| pb_open := true; header_written := false;
                      written := []; trailer_written := false |} w in
  let w := emit Call.avformat_write_header w in
  let w := set_fmt {| pb_open := true; header_written := true;
                      written := []; trailer_written := false |} w in
  let w := set_strm {| index := index (strm w);
                       st_time_base := mux_time_base env |} w in
  (true, w).

(** [DrawCursor]: the two bitmaps [GetIconInfo] creates are deleted after
    the icon is drawn. *)
Definition DrawCursor (env : Env) (n : nat) (w : World) : World :=
  match GetCursorInfo env n with
  | Some ci =>
      if Z.land (ci_flags ci) CURSOR_SHOWING =? 0 then w else
      match GetIconInfo env n with
      | Some iconInfo =>
          let w := emit Call.GetIconInfo w in
          let x := int32 (ci_x ci - xHotspot iconInfo) in
          let y := int32 (ci_y ci - yHotspot iconInfo) in
          let w := emit (Call.DrawIconEx x y) w in
          let w := emit (Call.DeleteObject IconColor) w in
          emit (Call.DeleteObject IconMask) w
      | None => w
      end
  | None => w
  end.

(** Bytes in one scan line of a device-independent bitmap. *)
Definition dib_stride (biWidth biBitCount : Z) : Z :=
  (biWidth * biBitCount + 31) / 32 * 4.

(** Bytes [GetDIBits] stores for [lines] scan lines of a 32-bit bitmap. *)
Definition GetDIBits_extent (biWidth lines : Z) : Z :=
  lines * dib_stride biWidth 32.

Arguments dib_stride : simpl never.
Arguments GetDIBits_extent : simpl never.

(** [GetDIBits] stores its bytes at the start of the buffer. *)
Definition GetDIBits (env : Env) (n : nat) (w : World) : World :=
  let buf := captureBuffer w in
  let ext := Z.to_nat (GetDIBits_extent (width w) (height w)) in
  let bits := list.resize ext Byte.x00 (screen_bits env n) in
  let w := emit (Call.GetDIBits (GetDIBits_extent (width w) (height w))
                   (Z.of_nat (length buf))) w in
  set_captureBuffer (take (length buf) (bits ++ drop ext buf)) w.

(** [captureBuffer.resize(n)]: cut, or fill up with zero bytes. *)
Definition vector_resize (n : Z) (w : World) : World :=
  let w := emit (Call.resize n) w in
  set_captureBuffer (list.resize (Z.to_nat n) Byte.x00 (captureBuffer w)) w.

Definition CaptureFrame (env : Env) (n : nat) (w : World) : World :=
  let w := emit Call.GetDC w in
  let w := emit Call.CreateCompatibleDC w in
  let w := emit (Call.CreateCompatibleBitmap (width w) (height w)) w in
  let w := emit Call.SelectObject w in
  let w := emit (Call.BitBlt (width w) (height w)) w in
  let w := emit Call.CreateSolidBrush w in
  let w := emit (Call.FrameRect (width w) (height w)) w in
  let w := emit (Call.DeleteObject Brush) w in
  let w := DrawCursor env n w in
  let need := int32 (int32 (width w * height w) * 4) in
  let w := if Z.of_nat (length (captureBuffer w)) <? to_size_t need
           then vector_resize (to_size_t need) w else w in
  let w := GetDIBits env n w in
  let w := emit (Call.DeleteObject Bitmap) w in
  let w := emit Call.DeleteDC w in
  emit Call.ReleaseDC w.

(** The body of the loop in [EncodeFrame]. *)
Definition mux_packet (env : Env) (pkt : AVPacket) (w : World) : World :=
  let w := emit Call.av_packet_rescale_ts w in
  let pkt := av_packet_rescale_ts env pkt (time_base (codec w))
               (st_time_base (strm w)) in
  let pkt := set_stream_index (index (strm w)) pkt in
  let w := av_interleaved_write_frame pkt w in
  emit Call.av_packet_unref w.

Definition EncodeFrame (env : Env) (w : World) : World :=
  let w := emit Call.sws_scale w in
  let yuv := sws_convert env (captureBuffer w) (int32 (width w * 4))
               (height w) in
  let w := set_frm (set_f_data yuv (frm w)) w in
  let w := set_frm (set_f_pts (pts_counter w) (frm w)) w in
  let w := set_pts_counter (int64 (pts_counter w + 1)) w in
  let w := avcodec_send_frame env (Some (frm w)) w in
  let w := emit Call.av_packet_alloc w in
  let w := while_receive_packet (mux_packet env) w in
  emit Call.av_packet_free w.

(** The body of the loop at the end of [Record]. *)
Definition write_packet (pkt : AVPacket) (w : World) : World :=
  let w := av_interleaved_write_frame pkt w in
  emit Call.av_packet_unref w.

(** The capture loop of [Record].  [n] counts the polls of the escape key,
    [next_frame] is the local of that name and [now] the steady clock.
    [None]: the key was not seen within [fuel] polls. *)
Fixpoint Record_loop (env : Env) (fuel : nat) (n : nat)
    (next_frame now : Z) (w : World) : option (Z * World) :=
  match fuel with
  | O => None
  | S fuel =>
      if GetAsyncKeyState env n =? 0 then
        let w := CaptureFrame env n w in
        let w := EncodeFrame env w in
        let now := now + busy env n in
        let next_frame := next_frame + FRAME_DELAY in
        let w := emit (Call.sleep_until next_frame now) w in
        let now := Z.max now next_frame + oversleep env n in
        Record_loop env fuel (S n) next_frame now w
      else Some (next_frame, w)
  end.

Definition Record_flush (env : Env) (w : World) : World :=
  let w := emit Call.av_packet_alloc w in
  let w := avcodec_send_frame env None w in
  let w := while_receive_packet write_packet w in
  let w := emit Call.av_packet_free w in
  av_write_trailer w.

Definition Record (env : Env) (fuel : nat) (w : World) : option World :=
  let next_frame := steady_clock_now env in
  match Record_loop env fuel 0 next_frame next_frame w with
  | Some (_, w) => Some (Record_flush env w)
  | None => None
  end.

(** Code that may read a member that was never assigned.  C++ defines no
    behaviour from such a read on: [Undefined w] is that read, made in
    the state [w], and nothing is said of what follows it. *)
Inductive Outcome (A : Type) :=
  | Done (a : A)
  | Undefined (w : World).

Arguments Done {A} a.
Arguments Undefined {A} w.

Definition and_then {A B : Type} (o : Outcome A) (k : A -> Outcome B)
    : Outcome B :=
  match o with
  | Done a => k a
  | Undefined w => Undefined w
  end.

(** [if (p) free(p)] in the destructor: a null pointer is skipped, a
    pointer to its object is freed, and a member that was never assigned
    has no value to test. *)
Definition destroy (p : ptr) (free : Call.t) (w : World) : Outcome World :=
  match p with
  | Null => Done w
  | Valid => Done (emit free w)
  | Indeterminate => Undefined w
  end.

(** The two calls that take the address of the member leave it null. *)
Definition ScreenRecorder_destructor (w : World) : Outcome World :=
  and_then (destroy (codec_ctx w) Call.avcodec_free_context w) (fun w =>
  let w := set_codec_ctx Null w in
  and_then (destroy (fmt_ctx w) Call.avformat_free_context w) (fun w =>
  and_then (destroy (sws_ctx w) Call.sws_freeContext w) (fun w =>
  and_then (destroy (frame w) Call.av_frame_free w) (fun w =>
  Done (set_frame Null w))))).

(** [return code;] at the end of [main]: the destructor of [recorder]
    runs before the process gets its exit code. *)
Definition exits_with (code : Z) (o : Outcome World) : Outcome (Z * World) :=
  and_then o (fun w => Done (code, w)).

(** [main]: [Some (Done (code, w))] when it returns [code] leaving the
    state [w], [Some (Undefined w)] when it reads a member that was never
    assigned, [None] when the escape key is not seen within [fuel]
    polls. *)
Definition main (env : Env) (fuel : nat) : option (Outcome (Z * World)) :=
  let w := emit Call.av_log_set_level ScreenRecorder in
  let '(ok, w) := Initialize env w in
  if ok then
    match Record env fuel w with
    | Some w => Some (exits_with 0 (ScreenRecorder_destructor w))
    | None => None
    end
  else Some (exits_with 0 (ScreenRecorder_destructor w)).

(** The state in which [main] ends, or makes the undefined read. *)
Definition final_state (o : Outcome (Z * World)) : World :=
  match o with
  | Done (_, w) => w
  | Undefined w => w
  end.

(** ** A small concrete outside world

    A 2 x 2 screen, an encoder that holds back one frame (the packet of a
    frame becomes ready when the next frame, or the null frame, is sent),
    a muxer whose stream time base is 1/15360, and the escape key seen at
    the poll of number [stop]. *)

Definition packet_of (f : AVFrame) : AVPacket :=
  {| pts := f_pts f; dts := f_pts f; duration := 1; stream_index := 0;
     data := f_data f |}.

Definition delay1_encoder (sent : list (option AVFrame)) : list AVPacket :=
  match reverse sent with
  | _ :: Some prev :: _ => [packet_of prev]
  | _ => []
  end.

(** Rounding to nearest, halves away from zero. *)
Definition rescale_q (a : Z) (bq cq : AVRational) : Z :=
  let b := num bq * den cq in
  let c := num cq * den bq in
  if 0 <=? a then (a * b + c / 2) / c else - ((- a * b + c / 2) / c).

Definition demo_env (stop : nat) (open_ret : Z) : Env :=
  {| GetSystemMetrics := fun _ => 2;
     GetAsyncKeyState := fun n => if (n <? stop)%nat then 0 else -32768;
     GetCursorInfo := fun n =>
       if Nat.even n
       then Some {| ci_flags := CURSOR_SHOWING; ci_x := 1; ci_y := 1 |}
       else None;
     GetIconInfo := fun _ => Some {| xHotspot := 0; yHotspot := 0 |};
     screen_bits := fun _ => repeat Byte.xff 16;
     steady_clock_now := 1000;
     busy := fun n => if Nat.even n then 50 else 5;
     oversleep := fun _ => 1;
     alloc_output_context_ok := true;
     find_encoder_ok := true;
     new_stream_ok := true;
     avcodec_open2_ret := open_ret;
     avio_open_ret := 0;
     mux_time_base := {| num := 1; den := 15360 |};
     encoder := delay1_encoder;
     av_rescale_q := rescale_q;
     sws_convert := fun buf _ _ => take 6 buf |}.

(** ** Reading a call trace *)

(** Presentation timestamps of the frames handed to the encoder. *)
Definition submitted_pts (tr : list Call.t) : list Z :=
  omap (fun e => match e with
                 | Call.avcodec_send_frame (Some p) => Some p
                 | _ => None
                 end) tr.

(** Deadlines handed to [sleep_until], and how far ahead each one was. *)
Definition deadlines (tr : list Call.t) : list Z :=
  omap (fun e => match e with
                 | Call.sleep_until d _ => Some d
                 | _ => None
                 end) tr.

Definition sleep_times (tr : list Call.t) : list Z :=
  omap (fun e => match e with
                 | Call.sleep_until d now => Some (d - now)
                 | _ => None
                 end) tr.

Definition resizes (tr : list Call.t) : list Z :=
  omap (fun e => match e with
                 | Call.resize n => Some n
                 | _ => None
                 end) tr.

(** For every pixel read: the bytes stored and the size of the buffer. *)
Definition pixel_reads (tr : list Call.t) : list (Z * Z) :=
  omap (fun e => match e with
                 | Call.GetDIBits b s => Some (b, s)
                 | _ => None
                 end) tr.

Definition packets_written (tr : list Call.t) : list AVPacket :=
  omap (fun e => match e with
                 | Call.av_interleaved_write_frame p => Some p
                 | _ => None
                 end) tr.

(** *** Resources *)

Inductive Resource :=
  | ScreenDC | MemoryDC | GdiBitmap | GdiBrush | IconBitmap
  | Packet
  | FormatContext | CodecContext | ScalerContext | EncoderFrame | OutputFile.

Global Instance Resource_eq_dec : EqDecision Resource.
Proof. solve_decision. Defined.

Definition acquires (e : Call.t) : list Resource :=
  match e with
  | Call.GetDC => [ScreenDC]
  | Call.CreateCompatibleDC => [MemoryDC]
  | Call.CreateCompatibleBitmap _ _ => [GdiBitmap]
  | Call.CreateSolidBrush => [GdiBrush]
  | Call.GetIconInfo => [IconBitmap; IconBitmap]
  | Call.av_packet_alloc => [Packet]
  | Call.avformat_alloc_output_context2 => [FormatContext]
  | Call.avcodec_alloc_context3 => [CodecContext]
  | Call.sws_getContext => [ScalerContext]
  | Call.av_frame_alloc => [EncoderFrame]
  | Call.avio_open => [OutputFile]
  | _ => []
  end.

Definition releases (e : Call.t) : list Resource :=
  match e with
  | Call.ReleaseDC => [ScreenDC]
  | Call.DeleteDC => [MemoryDC]
  | Call.DeleteObject Bitmap => [GdiBitmap]
  | Call.DeleteObject Brush => [GdiBrush]
  | Call.DeleteObject IconColor => [IconBitmap]
  | Call.DeleteObject IconMask => [IconBitmap]
  | Call.av_packet_free => [Packet]
  | Call.avformat_free_context => [FormatContext]
  | Call.avcodec_free_context => [CodecContext]
  | Call.sws_freeContext => [ScalerContext]
  | Call.av_frame_free => [EncoderFrame]
  | _ => []
  end.

Definition acquired (tr : list Call.t) : list Resource := tr ≫= acquires.
Definition released (tr : list Call.t) : list Resource := tr ≫= releases.

Definition count (r : Resource) (l : list Resource) : nat :=
  length (filter (eq r) l).

(** The resources [Initialize] creates and the destructor frees. *)
Definition long_lived (r : Resource) : bool :=
  match r with
  | FormatContext | CodecContext | ScalerContext | EncoderFrame => true
  | _ => false
  end.

(** No resource is created or destroyed by the calls of [tr]. *)
Definition no_churn (tr : list Call.t) : Prop :=
  acquired tr = [] ∧ released tr = [].

(** ** Closed forms of the steps *)

Definition DrawCursor_calls (env : Env) (n : nat) : list Call.t :=
  match GetCursorInfo env n with
  | Some ci =>
      if Z.land (ci_flags ci) CURSOR_SHOWING =? 0 then [] else
      match GetIconInfo env n with
      | Some iconInfo =>
          [Call.GetIconInfo;
           Call.DrawIconEx (int32 (ci_x ci - xHotspot iconInfo))
             (int32 (ci_y ci - yHotspot iconInfo));
           Call.DeleteObject IconColor; Call.DeleteObject IconMask]
      | None => []
      end
  | None => []
  end.

(** The size [CaptureFrame] compares the buffer with. *)
Definition needed_size (w : World) : Z :=
  to_size_t (int32 (int32 (width w * height w) * 4)).

Definition undersized (w : World) : bool :=
  Z.of_nat (length (captureBuffer w)) <? needed_size w.

(** The buffer as [GetDIBits] receives it. *)
Definition grown_buffer (w : World) : list byte :=
  if undersized w
  then list.resize (Z.to_nat (needed_size w)) Byte.x00 (captureBuffer w)
  else captureBuffer w.

Definition CaptureFrame_buffer (env : Env) (n : nat) (w : World)
    : list byte :=
  let ext := Z.to_nat (GetDIBits_extent (width w) (height w)) in
  take (length (grown_buffer w))
    (list.resize ext Byte.x00 (screen_bits env n) ++ drop ext (grown_buffer w)).

Definition CaptureFrame_calls (env : Env) (n : nat) (w : World)
    : list Call.t :=
  [Call.GetDC; Call.CreateCompatibleDC;
   Call.CreateCompatibleBitmap (width w) (height w); Call.SelectObject;
   Call.BitBlt (width w) (height w); Call.CreateSolidBrush;
   Call.FrameRect (width w) (height w); Call.DeleteObject Brush]
  ++ DrawCursor_calls env n
  ++ (if undersized w then [Call.resize (needed_size w)] else [])
  ++ [Call.GetDIBits (GetDIBits_extent (width w) (height w))
        (Z.of_nat (length (grown_buffer w)));
      Call.DeleteObject Bitmap; Call.DeleteDC; Call.ReleaseDC].

(** Timestamp, decoding timestamp and duration of a packet. *)
Definition stamps (p : AVPacket) : Z * Z * Z := (pts p, dts p, duration p).

(** The packet as the loop of [EncodeFrame] hands it to the muxer. *)
Definition mux_one (env : Env) (w : World) (p : AVPacket) : AVPacket :=
  set_stream_index (index (strm w))
    (av_packet_rescale_ts env p (time_base (codec w)) (st_time_base (strm w))).

Definition mux_calls (env : Env) (w : World) (ready : list AVPacket)
    : list Call.t :=
  ready ≫= fun p => [Call.av_packet_rescale_ts;
                     Call.av_interleaved_write_frame (mux_one env w p);
                     Call.av_packet_unref].

Definition write_calls (ready : list AVPacket) : list Call.t :=
  ready ≫= fun p => [Call.av_interleaved_write_frame p; Call.av_packet_unref].

(** The packets [avcodec_receive_packet] hands out before it fails. *)
Definition pending (c : AVCodecContext) : list AVPacket :=
  if cc_open c then cc_ready c else [].

(** The encoder once every pending packet was received. *)
Definition drained (c : AVCodecContext) : AVCodecContext :=
  if cc_open c then set_cc_queue (cc_sent c) [] c else c.

(** The encoder after [avcodec_send_frame]. *)
Definition codec_after_send (env : Env) (f : option AVFrame)
    (c : AVCodecContext) : AVCodecContext :=
  if cc_open c
  then set_cc_queue (cc_sent c ++ [f])
         (cc_ready c ++ encoder env (cc_sent c ++ [f])) c
  else c.

(** The frame [EncodeFrame] sends. *)
Definition frame_sent (env : Env) (w : World) : AVFrame :=
  set_f_pts (pts_counter w)
    (set_f_data (sws_convert env (captureBuffer w) (int32 (width w * 4))
                   (height w)) (frm w)).

(** The packets one call of [EncodeFrame] receives. *)
Definition EncodeFrame_packets (env : Env) (w : World) : list AVPacket :=
  pending (codec_after_send env (Some (frame_sent env w)) (codec w)).

(** The packets the loop at the end of [Record] receives. *)
Definition flush_packets (env : Env) (w : World) : list AVPacket :=
  pending (codec_after_send env None (codec w)).

(** ** Runs *)

(** The four checks of [Initialize] pass. *)
Definition init_ok (env : Env) : bool :=
  alloc_output_context_ok env && find_encoder_ok env && new_stream_ok env
  && (0 <=? avio_open_ret env).

(** The state in which [main] calls [Initialize]. *)
Definition at_start : World := emit Call.av_log_set_level ScreenRecorder.

(** The state [Initialize] leaves. *)
Definition initialized (env : Env) : World := snd (Initialize env at_start).

(** The escape key is first seen at the poll of number [N]: the loop of
    [Record] captures [N] frames. *)
Definition captures (env : Env) (N : nat) : Prop :=
  (forall i, (i < N)%nat -> GetAsyncKeyState env i = 0)
  /\ GetAsyncKeyState env N <> 0.

(** What the capture loop leaves as it is. *)
Record same_setup (w0 w : World) : Prop := {
  same_width : width w = width w0;
  same_height : height w = height w0;
  same_sws_ctx : sws_ctx w = sws_ctx w0;
  same_codec_ctx : codec_ctx w = codec_ctx w0;
  same_fmt_ctx : fmt_ctx w = fmt_ctx w0;
  same_stream : stream w = stream w0;
  same_frame : frame w = frame w0;
  same_strm : strm w = strm w0;
  same_time_base : time_base (codec w) = time_base (codec w0);
  same_cc_open : cc_open (codec w) = cc_open (codec w0);
  same_header : header_written (fmt w) = header_written (fmt w0);
  same_trailer : trailer_written (fmt w) = trailer_written (fmt w0)
}.

(** Length of one tick of a time base, in milliseconds. *)
Definition tick_ms (tb : AVRational) : Q :=
  (1000 * num tb) # Z.to_pos (den tb).

(** The deadline of the iteration of number [k], counted from 0, when the
    loop starts at [start]. *)
Definition deadline (start : Z) (k : nat) : Z :=
  start + Z.of_nat (S k) * FRAME_DELAY.

(** The byte count [width * height * 4] of the screen can be computed in
    [int] without overflow. *)
Definition fits_int (wd ht : Z) : Prop :=
  0 <= wd /\ 0 <= ht /\ wd * ht * 4 < 2 ^ 31.

(** The local [next_frame] and the deadlines slept on, after [n] rounds. *)
Definition on_schedule (env : Env) (n : nat) (nf : Z) (w : World) : Prop :=
  nf = steady_clock_now env + Z.of_nat n * FRAME_DELAY
  /\ deadlines (trace w) = deadline (steady_clock_now env) <$> seq 0 n.

(** A world in which the output file cannot be opened. *)
Definition no_file_env : Env :=
  {| GetSystemMetrics := GetSystemMetrics (demo_env 0 0);
     GetAsyncKeyState := fun _ => 0;
     GetCursorInfo := GetCursorInfo (demo_env 0 0);
     GetIconInfo := GetIconInfo (demo_env 0 0);
     screen_bits := screen_bits (demo_env 0 0);
     steady_clock_now := 0;
     busy := fun _ => 0;
     oversleep := fun _ => 0;
     alloc_output_context_ok := true;
     find_encoder_ok := true;
     new_stream_ok := true;
     avcodec_open2_ret := 0;
     avio_open_ret := -13;
     mux_time_base := {| num := 1; den := 15360 |};
     encoder := delay1_encoder;
     av_rescale_q := rescale_q;
     sws_convert := fun buf _ _ => buf |}.

(** *** Resources per frame *)

(** [DrawCursor] gets as far as [GetIconInfo] in the capture of number
    [n]. *)
Definition cursor_drawn (env : Env) (n : nat) : bool :=
  match GetCursorInfo env n with
  | Some ci =>
      if Z.land (ci_flags ci) CURSOR_SHOWING =? 0 then false
      else match GetIconInfo env n with Some _ => true | None => false end
  | None => false
  end.

(** The resources the iteration of number [k] creates, and those it
    releases, in the order of its calls. *)
Definition frame_acquired (env : Env) (k : nat) : list Resource :=
  [ScreenDC; MemoryDC; GdiBitmap; GdiBrush]
  ++ (if cursor_drawn env k then [IconBitmap; IconBitmap] else [])
  ++ [Packet].

Definition frame_released (env : Env) (k : nat) : list Resource :=
  [GdiBrush]
  ++ (if cursor_drawn env k then [IconBitmap; IconBitmap] else [])
  ++ [GdiBitmap; MemoryDC; ScreenDC; Packet].

Definition destructor_calls : list Call.t :=
  [Call.avcodec_free_context; Call.avformat_free_context;
   Call.sws_freeContext; Call.av_frame_free].

(** The state the destructor leaves when its four pointers point to
    their objects. *)
Definition destroyed (w : World) : World :=
  set_frame Null
    (set_codec_ctx Null (set_trace (trace w ++ destructor_calls) w)).

(** The calls the capture loop of [Record] makes, from the state
    [Initialize] leaves. *)
Definition loop_trace (env : Env) (fuel : nat) : option (list Call.t) :=
  match Record_loop env fuel 0 (steady_clock_now env) (steady_clock_now env)
          (initialized env) with
  | Some (_, w) => Some (drop (length (trace (initialized env))) (trace w))
  | None => None
  end.

(** ** Further readings of a call trace *)

(** Arguments of [avcodec_send_frame] in the order of the calls: the
    timestamp of the frame, or [None] for the null frame. *)
Definition sends (tr : list Call.t) : list (option Z) :=
  omap (fun e => match e with
                 | Call.avcodec_send_frame x => Some x
                 | _ => None
                 end) tr.

(** What is done to the output file. *)
Inductive FileOp := Header | PacketOut (p : AVPacket) | Trailer.

Definition file_ops (tr : list Call.t) : list FileOp :=
  omap (fun e => match e with
                 | Call.avformat_write_header => Some Header
                 | Call.av_interleaved_write_frame p => Some (PacketOut p)
                 | Call.av_write_trailer => Some Trailer
                 | _ => None
                 end) tr.

(** Sizes of the bitmaps [CaptureFrame] creates. *)
Definition bitmaps (tr : list Call.t) : list (Z * Z) :=
  omap (fun e => match e with
                 | Call.CreateCompatibleBitmap wd ht => Some (wd, ht)
                 | _ => None
                 end) tr.



(** The frame of number [k] as a run of [env] builds it: the capture of
    number [k] in a buffer of exactly the size of the screen. *)
Definition frame_of_capture (env : Env) (k : nat) : AVFrame :=
  let wd := int32 (GetSystemMetrics env SM_CXSCREEN) in
  let ht := int32 (GetSystemMetrics env SM_CYSCREEN) in
  {| f_format := AV_PIX_FMT_YUV420P; f_width := wd; f_height := ht;
     f_pts := Z.of_nat k;
     f_data := sws_convert env
                 (list.resize (Z.to_nat (wd * ht * 4)) Byte.x00
                    (screen_bits env k))
                 (int32 (wd * 4)) ht |}.

(** The first three checks of [Initialize] pass. *)
Definition early_checks_ok (env : Env) : bool :=
  alloc_output_context_ok env && find_encoder_ok env && new_stream_ok env.

(** The run records [N] frames: the escape key is first seen at the poll
    of number [N], or the output file could not be opened and there is
    no frame. *)
Definition records (env : Env) (N : nat) : Prop :=
  if init_ok env then captures env N else N = 0%nat.

(** An encoder that hands out the packet of a frame at once, stamped and
    numbered in its own way, and a world with it. *)
Definition eager_encoder (sent : list (option AVFrame)) : list AVPacket :=
  match reverse sent with
  | Some f :: _ =>
      [{| pts := f_pts f + 3; dts := f_pts f + 2; duration := 1;
          stream_index := 5; data := f_data f |}]
  | _ => []
  end.

Definition eager_env : Env :=
  {| GetSystemMetrics := GetSystemMetrics (demo_env 1 0);
     GetAsyncKeyState := GetAsyncKeyState (demo_env 1 0);
     GetCursorInfo := GetCursorInfo (demo_env 1 0);
     GetIconInfo := GetIconInfo (demo_env 1 0);
     screen_bits := screen_bits (demo_env 1 0);
     steady_clock_now := 0;
     busy := fun _ => 0;
     oversleep := fun _ => 0;
     alloc_output_context_ok := true;
     find_encoder_ok := true;
     new_stream_ok := true;
     avcodec_open2_ret := 0;
     avio_open_ret := 0;
     mux_time_base := {| num := 1; den := 15360 |};
     encoder := eager_encoder;
     av_rescale_q := rescale_q;
     sws_convert := fun buf _ _ => take 2 buf |}.

(** A world of [demo_env] in which every frame takes 20 ms and the sleeps
    return on time. *)
Definition punctual_env (stop : nat) : Env :=
  {| GetSystemMetrics := GetSystemMetrics (demo_env stop 0);
     GetAsyncKeyState := GetAsyncKeyState (demo_env stop 0);
     GetCursorInfo := GetCursorInfo (demo_env stop 0);
     GetIconInfo := GetIconInfo (demo_env stop 0);
     screen_bits := screen_bits (demo_env stop 0);
     steady_clock_now := 1000;
     busy := fun _ => 20;
     oversleep := fun _ => 0;
     alloc_output_context_ok := true;
     find_encoder_ok := true;
     new_stream_ok := true;
     avcodec_open2_ret := 0;
     avio_open_ret := 0;
     mux_time_base := {| num := 1; den := 15360 |};
     encoder := delay1_encoder;
     av_rescale_q := rescale_q;
     sws_convert := fun buf _ _ => take 6 buf |}.

(** A world in which no H.264 encoder is found. *)
Definition no_encoder_env : Env :=
  {| GetSystemMetrics := GetSystemMetrics (demo_env 0 0);
     GetAsyncKeyState := fun _ => 0;
     GetCursorInfo := GetCursorInfo (demo_env 0 0);
     GetIconInfo := GetIconInfo (demo_env 0 0);
     screen_bits := screen_bits (demo_env 0 0);
     steady_clock_now := 0;
     busy := fun _ => 0;
     oversleep := fun _ => 0;
     alloc_output_context_ok := true;
     find_encoder_ok := false;
     new_stream_ok := true;
     avcodec_open2_ret := 0;
     avio_open_ret := 0;
     mux_time_base := {| num := 1; den := 15360 |};
     encoder := delay1_encoder;
     av_rescale_q := rescale_q;
     sws_convert := fun buf _ _ => buf |}.

(** Where [DrawCursor] draws the icon in the capture of number [k], if
    it does. *)
Definition cursor_at (env : Env) (k : nat) : option (Z * Z) :=
  match GetCursorInfo env k with
  | Some ci =>
      if Z.land (ci_flags ci) CURSOR_SHOWING =? 0 then None else
      match GetIconInfo env k with
      | Some iconInfo =>
          Some (int32 (ci_x ci - xHotspot iconInfo),
                int32 (ci_y ci - yHotspot iconInfo))
      | None => None
      end
  | None => None
  end.

(** Positions handed to [DrawIconEx]. *)
Definition draws (tr : list Call.t) : list (Z * Z) :=
  omap (fun e => match e with
                 | Call.DrawIconEx x y => Some (x, y)
                 | _ => None
                 end) tr.

(** What the loop keeps true of the calls it has made so far: they split
    into one stretch per iteration, each creating and releasing the
    resources of its own frame and no long-lived one, and the buffer was
    resized at most once. *)
Definition frame_by_frame (env : Env) (n : nat) (w : World) : Prop :=
  exists iterations : list (list Call.t),
    trace w = trace (initialized env) ++ concat iterations
    /\ length iterations = n
    /\ (forall k calls, iterations !! k = Some calls ->
          acquired calls = frame_acquired env k
          /\ released calls = frame_released env k)
    /\ (forall r, long_lived r = true ->
          count r (acquired (concat iterations)) = 0%nat
          /\ count r (released (concat iterations)) = 0%nat)
    /\ (resizes (trace w) = []
        \/ (length (resizes (trace w)) = 1%nat /\ undersized w = false)).

(** * Proofs *)

(** ** Machine integers *)

Lemma int32_id x : - 2 ^ 31 <= x < 2 ^ 31 -> int32 x = x.
Proof.
  intros H. unfold int32, wrap_signed.
  change (2 ^ (32 - 1)) with (2 ^ 31). change (2 ^ 32) with (2 * 2 ^ 31).
  rewrite Z.mod_small; lia.
Qed.

Lemma int64_id x : - 2 ^ 63 <= x < 2 ^ 63 -> int64 x = x.
Proof.
  intros H. unfold int64, wrap_signed.
  change (2 ^ (64 - 1)) with (2 ^ 63). change (2 ^ 64) with (2 * 2 ^ 63).
  rewrite Z.mod_small; lia.
Qed.

Lemma to_size_t_id x : 0 <= x < 2 ^ 64 -> to_size_t x = x.
Proof. intros H. unfold to_size_t. apply Z.mod_small, H. Qed.

Lemma FRAME_DELAY_eq : FRAME_DELAY = 33.
Proof. reflexivity. Qed.

(** ** Single calls *)

Lemma trace_emit e w : trace (emit e w) = trace w ++ [e].
Proof. reflexivity. Qed.

Lemma pts_counter_emit e w : pts_counter (emit e w) = pts_counter w.
Proof. reflexivity. Qed.

Lemma captureBuffer_emit e w : captureBuffer (emit e w) = captureBuffer w.
Proof. reflexivity. Qed.

Lemma codec_emit e w : codec (emit e w) = codec w.
Proof. reflexivity. Qed.

Lemma fmt_emit e w : fmt (emit e w) = fmt w.
Proof. reflexivity. Qed.

Lemma DrawCursor_eq env n w :
  DrawCursor env n w = set_trace (trace w ++ DrawCursor_calls env n) w.
Proof.
  unfold DrawCursor, DrawCursor_calls.
  destruct (GetCursorInfo env n) as [ci|];
    [destruct (Z.land (ci_flags ci) CURSOR_SHOWING =? 0);
     [|destruct (GetIconInfo env n)]|];
    destruct w; unfold emit, set_trace; simpl;
    rewrite <- ?app_assoc, ?app_nil_r; reflexivity.
Qed.

(** Evaluation of the steps on a world given by its members.  The steps
    are chains of assignments: they are evaluated innermost first. *)
Ltac run_steps :=
  lazy [DrawCursor DrawCursor_calls GetDIBits vector_resize
        avcodec_send_frame av_interleaved_write_frame av_write_trailer
        mux_packet write_packet emit
        set_width set_height set_sws_ctx set_codec_ctx set_fmt_ctx
        set_stream set_frame set_captureBuffer set_pts_counter set_codec
        set_fmt set_strm set_frm set_trace
        set_cc_open set_cc_queue set_written set_trailer_written
        set_f_pts set_f_data
        width height sws_ctx codec_ctx fmt_ctx stream frame captureBuffer
        pts_counter codec fmt strm frm trace
        cc_width cc_height time_base pix_fmt bit_rate cc_open cc_sent
        cc_ready pb_open header_written written trailer_written
        index st_time_base f_format f_width f_height f_pts f_data].

Lemma CaptureFrame_eq env n w :
  CaptureFrame env n w =
  set_captureBuffer (CaptureFrame_buffer env n w)
    (set_trace (trace w ++ CaptureFrame_calls env n w) w).
Proof.
  unfold CaptureFrame, CaptureFrame_buffer, CaptureFrame_calls, grown_buffer,
    undersized, needed_size.
  destruct w as [wd ht ? ? ? ? ? buf ? ? ? ? ? tr]. run_steps.
  destruct (GetCursorInfo env n) as [ci|];
    [destruct (Z.land (ci_flags ci) CURSOR_SHOWING =? 0);
     [|destruct (GetIconInfo env n)]|];
    (destruct (Z.of_nat (length buf) <? _);
     rewrite <- ?app_assoc; reflexivity).
Qed.

(** ** The receive loops *)

Ltac run_steps_everywhere :=
  lazy [DrawCursor DrawCursor_calls GetDIBits vector_resize
        avcodec_send_frame av_interleaved_write_frame av_write_trailer
        mux_packet write_packet emit
        set_width set_height set_sws_ctx set_codec_ctx set_fmt_ctx
        set_stream set_frame set_captureBuffer set_pts_counter set_codec
        set_fmt set_strm set_frm set_trace
        set_cc_open set_cc_queue set_written set_trailer_written
        set_f_pts set_f_data
        width height sws_ctx codec_ctx fmt_ctx stream frame captureBuffer
        pts_counter codec fmt strm frm trace
        cc_width cc_height time_base pix_fmt bit_rate cc_open cc_sent
        cc_ready pb_open header_written written trailer_written
        index st_time_base f_format f_width f_height f_pts f_data] in *.

(** Two worlds given by their members are equal. *)
Ltac world_eq :=
  repeat match goal with
         | w : World |- _ => destruct w
         | c : AVCodecContext |- _ => destruct c
         | m : AVFormatContext |- _ => destruct m
         end;
  run_steps_everywhere; subst;
  rewrite <- ?app_assoc, ?app_nil_r; try reflexivity.

Lemma receive_loop_closed body fuel w :
  cc_open (codec w) = false -> receive_loop body fuel w = w.
Proof.
  intros Hc. destruct fuel as [|fuel]; cbn [receive_loop]; [reflexivity|].
  unfold avcodec_receive_packet. rewrite Hc. reflexivity.
Qed.

Lemma receive_loop_mux env ready :
  forall fuel w,
    cc_open (codec w) = true -> cc_ready (codec w) = ready ->
    (length ready < fuel)%nat ->
    receive_loop (mux_packet env) fuel w =
    set_trace (trace w ++ mux_calls env w ready)
      (set_fmt (set_written (written (fmt w) ++ map (mux_one env w) ready)
                  (fmt w))
         (set_codec (set_cc_queue (cc_sent (codec w)) [] (codec w)) w)).
Proof.
  induction ready as [|p ready IH]; intros fuel w Ho Hr Hf;
    (destruct fuel as [|fuel]; [simpl in Hf; lia|]);
    cbn [receive_loop]; unfold avcodec_receive_packet; rewrite Ho, Hr.
  - world_eq.
  - rewrite IH; [|exact Ho|reflexivity|simpl in Hf; lia].
    unfold mux_calls, mux_one. world_eq.
Qed.

Lemma receive_loop_write ready :
  forall fuel w,
    cc_open (codec w) = true -> cc_ready (codec w) = ready ->
    (length ready < fuel)%nat ->
    receive_loop write_packet fuel w =
    set_trace (trace w ++ write_calls ready)
      (set_fmt (set_written (written (fmt w) ++ ready) (fmt w))
         (set_codec (set_cc_queue (cc_sent (codec w)) [] (codec w)) w)).
Proof.
  induction ready as [|p ready IH]; intros fuel w Ho Hr Hf;
    (destruct fuel as [|fuel]; [simpl in Hf; lia|]);
    cbn [receive_loop]; unfold avcodec_receive_packet; rewrite Ho, Hr.
  - world_eq.
  - rewrite IH; [|exact Ho|reflexivity|simpl in Hf; lia].
    unfold write_calls. world_eq.
Qed.

Lemma while_receive_mux env w :
  while_receive_packet (mux_packet env) w =
  set_trace (trace w ++ mux_calls env w (pending (codec w)))
    (set_fmt (set_written
                (written (fmt w) ++ map (mux_one env w) (pending (codec w)))
                (fmt w))
       (set_codec (drained (codec w)) w)).
Proof.
  unfold while_receive_packet, pending, drained.
  destruct (cc_open (codec w)) eqn:Ho.
  - apply receive_loop_mux; [exact Ho|reflexivity|lia].
  - rewrite receive_loop_closed by exact Ho. world_eq.
Qed.

Lemma while_receive_write w :
  while_receive_packet write_packet w =
  set_trace (trace w ++ write_calls (pending (codec w)))
    (set_fmt (set_written (written (fmt w) ++ pending (codec w)) (fmt w))
       (set_codec (drained (codec w)) w)).
Proof.
  unfold while_receive_packet, pending, drained.
  destruct (cc_open (codec w)) eqn:Ho.
  - apply receive_loop_write; [exact Ho|reflexivity|lia].
  - rewrite receive_loop_closed by exact Ho. world_eq.
Qed.

(** The loops stop because the encoder has no packet left, not because
    the bound on the rounds is reached. *)
Lemma while_receive_mux_drained env w :
  avcodec_receive_packet (codec (while_receive_packet (mux_packet env) w))
  = None.
Proof.
  rewrite while_receive_mux. simpl. unfold drained, avcodec_receive_packet.
  destruct (cc_open (codec w)) eqn:Ho; simpl; rewrite Ho; reflexivity.
Qed.

Lemma while_receive_write_drained w :
  avcodec_receive_packet (codec (while_receive_packet write_packet w))
  = None.
Proof.
  rewrite while_receive_write. simpl. unfold drained, avcodec_receive_packet.
  destruct (cc_open (codec w)) eqn:Ho; simpl; rewrite Ho; reflexivity.
Qed.

(** ** One frame *)

Lemma EncodeFrame_eq env w :
  EncodeFrame env w =
  set_trace
    (trace w
     ++ [Call.sws_scale; Call.avcodec_send_frame (Some (pts_counter w));
         Call.av_packet_alloc]
     ++ mux_calls env w (EncodeFrame_packets env w)
     ++ [Call.av_packet_free])
    (set_fmt
       (set_written
          (written (fmt w) ++ map (mux_one env w) (EncodeFrame_packets env w))
          (fmt w))
       (set_codec
          (drained (codec_after_send env (Some (frame_sent env w)) (codec w)))
          (set_pts_counter (int64 (pts_counter w + 1))
             (set_frm (frame_sent env w) w)))).
Proof.
  unfold EncodeFrame. rewrite while_receive_mux.
  unfold EncodeFrame_packets, codec_after_send, frame_sent,
    avcodec_send_frame, mux_calls, mux_one, pending, drained.
  destruct w as [? ? ? ? ? ? ? ? ? c ? ? ? ?]; simpl.
  destruct (cc_open c) eqn:Ho; simpl; rewrite ?Ho; world_eq.
Qed.

Lemma Record_flush_eq env w :
  Record_flush env w =
  set_trace
    (trace w
     ++ [Call.av_packet_alloc; Call.avcodec_send_frame None]
     ++ write_calls (flush_packets env w)
     ++ [Call.av_packet_free; Call.av_write_trailer])
    (set_fmt
       (set_trailer_written true
          (set_written (written (fmt w) ++ flush_packets env w) (fmt w)))
       (set_codec (drained (codec_after_send env None (codec w))) w)).
Proof.
  unfold Record_flush. rewrite while_receive_write.
  unfold flush_packets, codec_after_send, avcodec_send_frame, av_write_trailer,
    write_calls, pending, drained.
  destruct w as [? ? ? ? ? ? ? ? ? c ? ? ? ?]; simpl.
  destruct (cc_open c) eqn:Ho; simpl; rewrite ?Ho; world_eq.
Qed.

Lemma same_setup_refl w : same_setup w w.
Proof. split; reflexivity. Qed.

Lemma same_setup_emit e w0 w : same_setup w0 w -> same_setup w0 (emit e w).
Proof. intros []. split; assumption. Qed.

Lemma same_setup_CaptureFrame env n w0 w :
  same_setup w0 w -> same_setup w0 (CaptureFrame env n w).
Proof. intros []. rewrite CaptureFrame_eq. split; simpl; assumption. Qed.

Lemma same_setup_EncodeFrame env w0 w :
  same_setup w0 w -> same_setup w0 (EncodeFrame env w).
Proof.
  intros []. rewrite EncodeFrame_eq. split; simpl; try assumption.
  - unfold drained, codec_after_send.
    destruct (cc_open (codec w)) eqn:Ho; simpl; rewrite ?Ho; simpl; assumption.
  - unfold drained, codec_after_send.
    destruct (cc_open (codec w)) eqn:Ho; simpl; rewrite ?Ho; simpl; congruence.
Qed.

(** ** Initialize *)

Lemma Initialize_result env : fst (Initialize env at_start) = init_ok env.
Proof.
  unfold Initialize, init_ok.
  destruct (alloc_output_context_ok env); simpl; [|reflexivity].
  destruct (find_encoder_ok env); simpl; [|reflexivity].
  destruct (new_stream_ok env); simpl; [|reflexivity].
  destruct (Z.ltb_spec (avio_open_ret env) 0),
    (Z.leb_spec 0 (avio_open_ret env)); try lia; reflexivity.
Qed.

Lemma initialized_eq env :
  init_ok env = true ->
  initialized env =
  {| width := int32 (GetSystemMetrics env SM_CXSCREEN);
     height := int32 (GetSystemMetrics env SM_CYSCREEN);
     sws_ctx := Valid; codec_ctx := Valid; fmt_ctx := Valid;
     stream := Valid; frame := Valid;
     captureBuffer := []; pts_counter := 0;
     codec := {| cc_width := int32 (GetSystemMetrics env SM_CXSCREEN);
                 cc_height := int32 (GetSystemMetrics env SM_CYSCREEN);
                 time_base := {| num := 1; den := FPS |};
                 pix_fmt := AV_PIX_FMT_YUV420P; bit_rate := 4000000;
                 cc_open := 0 <=? avcodec_open2_ret env;
                 cc_sent := []; cc_ready := [] |};
     fmt := {| pb_open := true; header_written := true; written := [];
               trailer_written := false |};
     strm := {| index := 0; st_time_base := mux_time_base env |};
     frm := {| f_format := AV_PIX_FMT_YUV420P;
               f_width := int32 (GetSystemMetrics env SM_CXSCREEN);
               f_height := int32 (GetSystemMetrics env SM_CYSCREEN);
               f_pts := AV_NOPTS_VALUE; f_data := [] |};
     trace := [Call.av_log_set_level; Call.avformat_alloc_output_context2;
               Call.avformat_new_stream; Call.avcodec_alloc_context3;
               Call.avcodec_open2; Call.sws_getContext; Call.av_frame_alloc;
               Call.av_frame_get_buffer; Call.avio_open;
               Call.avformat_write_header] |}.
Proof.
  unfold init_ok, initialized, Initialize. intros H.
  destruct (alloc_output_context_ok env); simpl in *; [|discriminate].
  destruct (find_encoder_ok env); simpl in *; [|discriminate].
  destruct (new_stream_ok env); simpl in *; [|discriminate].
  apply Z.leb_le in H.
  destruct (Z.ltb_spec (avio_open_ret env) 0); [lia|reflexivity].
Qed.

Lemma main_eq env fuel :
  main env fuel =
  if init_ok env then
    match Record env fuel (initialized env) with
    | Some w => Some (exits_with 0 (ScreenRecorder_destructor w))
    | None => None
    end
  else Some (exits_with 0 (ScreenRecorder_destructor (initialized env))).
Proof.
  unfold main, initialized. fold at_start.
  rewrite <- Initialize_result.
  destruct (Initialize env at_start) as [ok w]. reflexivity.
Qed.

Lemma destructor_defined w :
  sws_ctx w = Valid -> codec_ctx w = Valid -> fmt_ctx w = Valid ->
  frame w = Valid ->
  ScreenRecorder_destructor w = Done (destroyed w).
Proof.
  intros Hs Hc Hf Hr.
  unfold ScreenRecorder_destructor, destroyed, destructor_calls.
  destruct w; simpl in Hs, Hc, Hf, Hr; subst.
  unfold destroy, and_then. run_steps.
  rewrite <- !app_assoc. reflexivity.
Qed.

Lemma destructor_trace w :
  trace (destroyed w) =
  trace w ++ [Call.avcodec_free_context; Call.avformat_free_context;
              Call.sws_freeContext; Call.av_frame_free].
Proof. reflexivity. Qed.

Lemma destructor_fmt w : fmt (destroyed w) = fmt w.
Proof. reflexivity. Qed.

Lemma destructor_codec w : codec (destroyed w) = codec w.
Proof. reflexivity. Qed.

Lemma time_base_after_send env f c :
  time_base (drained (codec_after_send env f c)) = time_base c.
Proof.
  unfold drained, codec_after_send.
  destruct (cc_open c) eqn:Ho; cbn [cc_open set_cc_queue]; rewrite ?Ho;
    reflexivity.
Qed.

(** ** The capture loop *)

(** An invariant of the loop body holds when the loop ends, and the loop
    ends as soon as the fuel exceeds the number of frames. *)
Lemma Record_loop_rule_from env (I : nat -> Z -> Z -> World -> Prop) N :
  captures env N ->
  (forall n nf now w, (n < N)%nat -> I n nf now w ->
     I (S n) (nf + FRAME_DELAY)
       (Z.max (now + busy env n) (nf + FRAME_DELAY) + oversleep env n)
       (emit (Call.sleep_until (nf + FRAME_DELAY) (now + busy env n))
          (EncodeFrame env (CaptureFrame env n w)))) ->
  forall k n fuel nf now w,
    (n + k = N)%nat -> (k < fuel)%nat -> I n nf now w ->
    exists nf' now' w',
      Record_loop env fuel n nf now w = Some (nf', w') /\ I N nf' now' w'.
Proof.
  intros [Hrun Hstop] Hstep.
  induction k as [|k IH]; intros n fuel nf now w Hn Hf HI;
    (destruct fuel as [|fuel]; [lia|]); simpl.
  - replace n with N by lia.
    apply Z.eqb_neq in Hstop. rewrite Hstop.
    exists nf, now, w. split; [reflexivity|]. replace N with n by lia. exact HI.
  - rewrite (Hrun n) by lia. simpl.
    apply IH; [lia|lia|]. apply Hstep; [lia|exact HI].
Qed.

Lemma Record_loop_rule env (I : nat -> Z -> Z -> World -> Prop) N :
  captures env N ->
  (forall n nf now w, (n < N)%nat -> I n nf now w ->
     I (S n) (nf + FRAME_DELAY)
       (Z.max (now + busy env n) (nf + FRAME_DELAY) + oversleep env n)
       (emit (Call.sleep_until (nf + FRAME_DELAY) (now + busy env n))
          (EncodeFrame env (CaptureFrame env n w)))) ->
  forall fuel nf now w,
    (N < fuel)%nat -> I 0%nat nf now w ->
    exists nf' now' w',
      Record_loop env fuel 0 nf now w = Some (nf', w') /\ I N nf' now' w'.
Proof.
  intros Hc Hstep fuel nf now w Hf HI.
  apply (Record_loop_rule_from env I N Hc Hstep N 0%nat); [lia|lia|exact HI].
Qed.

Lemma mux_calls_ext env w w' ready :
  strm w' = strm w -> time_base (codec w') = time_base (codec w) ->
  mux_calls env w' ready = mux_calls env w ready.
Proof. unfold mux_calls, mux_one. intros -> ->. reflexivity. Qed.

Lemma CaptureFrame_trace env n w :
  trace (CaptureFrame env n w) = trace w ++ CaptureFrame_calls env n w.
Proof. rewrite CaptureFrame_eq. reflexivity. Qed.

Lemma CaptureFrame_pts_counter env n w :
  pts_counter (CaptureFrame env n w) = pts_counter w.
Proof. rewrite CaptureFrame_eq. reflexivity. Qed.

Lemma CaptureFrame_captureBuffer env n w :
  captureBuffer (CaptureFrame env n w) = CaptureFrame_buffer env n w.
Proof. rewrite CaptureFrame_eq. reflexivity. Qed.

Lemma CaptureFrame_mux_calls env n w ready :
  mux_calls env (CaptureFrame env n w) ready = mux_calls env w ready.
Proof. apply mux_calls_ext; rewrite CaptureFrame_eq; reflexivity. Qed.

Lemma EncodeFrame_trace env w :
  trace (EncodeFrame env w) =
  trace w
  ++ [Call.sws_scale; Call.avcodec_send_frame (Some (pts_counter w));
      Call.av_packet_alloc]
  ++ mux_calls env w (EncodeFrame_packets env w)
  ++ [Call.av_packet_free].
Proof. rewrite EncodeFrame_eq. reflexivity. Qed.

Lemma EncodeFrame_pts_counter env w :
  pts_counter (EncodeFrame env w) = int64 (pts_counter w + 1).
Proof. rewrite EncodeFrame_eq. reflexivity. Qed.

Lemma EncodeFrame_captureBuffer env w :
  captureBuffer (EncodeFrame env w) = captureBuffer w.
Proof. rewrite EncodeFrame_eq. reflexivity. Qed.

Lemma EncodeFrame_written env w :
  written (fmt (EncodeFrame env w)) =
  written (fmt w) ++ map (mux_one env w) (EncodeFrame_packets env w).
Proof. rewrite EncodeFrame_eq. reflexivity. Qed.

Lemma EncodeFrame_codec env w :
  codec (EncodeFrame env w) =
  drained (codec_after_send env (Some (frame_sent env w)) (codec w)).
Proof. rewrite EncodeFrame_eq. reflexivity. Qed.

(** The body of the capture loop, as one step on the world. *)
Lemma iteration_trace env n nf now w :
  trace (emit (Call.sleep_until nf now)
           (EncodeFrame env (CaptureFrame env n w))) =
  trace w ++ CaptureFrame_calls env n w
  ++ [Call.sws_scale; Call.avcodec_send_frame (Some (pts_counter w));
      Call.av_packet_alloc]
  ++ mux_calls env w (EncodeFrame_packets env (CaptureFrame env n w))
  ++ [Call.av_packet_free; Call.sleep_until nf now].
Proof.
  rewrite trace_emit, EncodeFrame_trace, CaptureFrame_trace,
    CaptureFrame_pts_counter, CaptureFrame_mux_calls.
  rewrite <- !app_assoc. reflexivity.
Qed.

Lemma iteration_pts_counter env n nf now w :
  pts_counter (emit (Call.sleep_until nf now)
                 (EncodeFrame env (CaptureFrame env n w))) =
  int64 (pts_counter w + 1).
Proof.
  rewrite pts_counter_emit, EncodeFrame_pts_counter, CaptureFrame_pts_counter.
  reflexivity.
Qed.

Lemma iteration_same_setup env n nf now w0 w :
  same_setup w0 w ->
  same_setup w0 (emit (Call.sleep_until nf now)
                   (EncodeFrame env (CaptureFrame env n w))).
Proof.
  intros H. apply same_setup_emit, same_setup_EncodeFrame,
    same_setup_CaptureFrame, H.
Qed.

Lemma initialized_valid env :
  init_ok env = true ->
  sws_ctx (initialized env) = Valid /\ codec_ctx (initialized env) = Valid
  /\ fmt_ctx (initialized env) = Valid /\ frame (initialized env) = Valid.
Proof. intros Hok. rewrite (initialized_eq env Hok). repeat split. Qed.

Lemma Record_flush_trace env w :
  trace (Record_flush env w) =
  trace w
  ++ [Call.av_packet_alloc; Call.avcodec_send_frame None]
  ++ write_calls (flush_packets env w)
  ++ [Call.av_packet_free; Call.av_write_trailer].
Proof. rewrite Record_flush_eq. reflexivity. Qed.

Lemma Record_flush_fmt env w :
  fmt (Record_flush env w) =
  set_trailer_written true
    (set_written (written (fmt w) ++ flush_packets env w) (fmt w)).
Proof. rewrite Record_flush_eq. reflexivity. Qed.

Lemma Record_flush_codec env w :
  codec (Record_flush env w) = drained (codec_after_send env None (codec w)).
Proof. rewrite Record_flush_eq. reflexivity. Qed.

Lemma same_setup_valid env w :
  init_ok env = true -> same_setup (initialized env) w ->
  sws_ctx w = Valid /\ codec_ctx w = Valid /\ fmt_ctx w = Valid
  /\ frame w = Valid.
Proof.
  intros Hok [].
  destruct (initialized_valid env Hok) as (H1 & H2 & H3 & H4).
  repeat split; congruence.
Qed.

(** After a run that passed [Initialize] the destructor finds its four
    pointers assigned. *)
Lemma destructor_after_flush env w :
  init_ok env = true -> same_setup (initialized env) w ->
  ScreenRecorder_destructor (Record_flush env w)
  = Done (destroyed (Record_flush env w)).
Proof.
  intros Hok Hs.
  destruct (same_setup_valid env w Hok Hs) as (H1 & H2 & H3 & H4).
  apply destructor_defined; rewrite Record_flush_eq; assumption.
Qed.

(** A whole run of [main] that passes [Initialize] and captures [N]
    frames: the loop invariant [I] holds of the state in which the loop is
    left, and [main] returns after the final flush and the destructor. *)
Lemma main_run env (I : nat -> Z -> Z -> World -> Prop) N fuel :
  init_ok env = true -> captures env N -> (N < fuel)%nat ->
  I 0%nat (steady_clock_now env) (steady_clock_now env) (initialized env) ->
  (forall n nf now w, (n < N)%nat ->
     same_setup (initialized env) w -> I n nf now w ->
     I (S n) (nf + FRAME_DELAY)
       (Z.max (now + busy env n) (nf + FRAME_DELAY) + oversleep env n)
       (emit (Call.sleep_until (nf + FRAME_DELAY) (now + busy env n))
          (EncodeFrame env (CaptureFrame env n w)))) ->
  exists nf now w,
    main env fuel = Some (Done (0, destroyed (Record_flush env w)))
    /\ I N nf now w /\ same_setup (initialized env) w.
Proof.
  intros Hok Hc Hf H0 Hstep.
  destruct (Record_loop_rule env
              (fun n nf now w => I n nf now w /\ same_setup (initialized env) w)
              N Hc) with (fuel := fuel) (nf := steady_clock_now env)
              (now := steady_clock_now env) (w := initialized env)
    as (nf & now & w & Heq & HI & Hs).
  - intros n nf now w Hn [HI Hs]. split.
    + apply Hstep; assumption.
    + apply iteration_same_setup, Hs.
  - exact Hf.
  - split; [exact H0|apply same_setup_refl].
  - exists nf, now, w. split; [|split; assumption].
    rewrite main_eq, Hok. unfold Record. rewrite Heq.
    rewrite (destructor_after_flush env w Hok Hs). reflexivity.
Qed.

Lemma final_trace env w :
  init_ok env = true -> same_setup (initialized env) w ->
  trace (destroyed (Record_flush env w)) =
  trace w
  ++ [Call.av_packet_alloc; Call.avcodec_send_frame None]
  ++ write_calls (flush_packets env w)
  ++ [Call.av_packet_free; Call.av_write_trailer;
      Call.avcodec_free_context; Call.avformat_free_context;
      Call.sws_freeContext; Call.av_frame_free].
Proof.
  intros Hok Hs.
  rewrite destructor_trace, Record_flush_trace, <- !app_assoc. reflexivity.
Qed.

Lemma final_fmt env w :
  fmt (destroyed (Record_flush env w)) =
  set_trailer_written true
    (set_written (written (fmt w) ++ flush_packets env w) (fmt w)).
Proof. rewrite destructor_fmt. apply Record_flush_fmt. Qed.

(** ** Reading the traces of the steps *)

Section Observers.
Context {A : Type} (f : Call.t -> option A).

Lemma omap_mux_calls env w ready :
  f Call.av_packet_rescale_ts = None ->
  (forall p, f (Call.av_interleaved_write_frame p) = None) ->
  f Call.av_packet_unref = None ->
  omap f (mux_calls env w ready) = [].
Proof.
  intros H1 H2 H3. unfold mux_calls.
  induction ready as [|p ready IH]; [reflexivity|].
  simpl. rewrite H1, H2, H3. exact IH.
Qed.

Lemma omap_write_calls ready :
  (forall p, f (Call.av_interleaved_write_frame p) = None) ->
  f Call.av_packet_unref = None ->
  omap f (write_calls ready) = [].
Proof.
  intros H2 H3. unfold write_calls.
  induction ready as [|p ready IH]; [reflexivity|].
  simpl. rewrite H2, H3. exact IH.
Qed.
End Observers.

Ltac capture_cases env n w :=
  unfold CaptureFrame_calls, DrawCursor_calls;
  destruct (GetCursorInfo env n) as [?ci|];
    [destruct (Z.land (ci_flags _) CURSOR_SHOWING =? 0);
     [|destruct (GetIconInfo env n)]|];
    destruct (undersized w); simpl; try reflexivity.

Lemma submitted_CaptureFrame env n w :
  submitted_pts (CaptureFrame_calls env n w) = [].
Proof. capture_cases env n w. Qed.

Lemma submitted_iteration env n nf now w :
  submitted_pts (trace (emit (Call.sleep_until nf now)
                          (EncodeFrame env (CaptureFrame env n w)))) =
  submitted_pts (trace w) ++ [pts_counter w].
Proof.
  rewrite iteration_trace. unfold submitted_pts.
  rewrite !omap_app. fold submitted_pts.
  rewrite submitted_CaptureFrame, omap_mux_calls by reflexivity.
  reflexivity.
Qed.

Lemma submitted_final env w :
  init_ok env = true -> same_setup (initialized env) w ->
  submitted_pts (trace (destroyed (Record_flush env w))) =
  submitted_pts (trace w).
Proof.
  intros Hok Hs. rewrite final_trace by assumption. unfold submitted_pts.
  rewrite !omap_app, omap_write_calls by reflexivity.
  simpl. rewrite app_nil_r. reflexivity.
Qed.

(** ** Presentation timestamps *)

(** C1.  In every run that passes [Initialize] and captures [N] frames
    (the counter is an [int64_t]: at most 2^63 of them), the presentation
    timestamps of the frames handed to the encoder are 0, 1, ..., N-1 in
    this order, whatever the clock, the time the frames take and the
    lateness of the sleeps are. *)
Theorem pts_sequence env N fuel :
  init_ok env = true -> captures env N -> Z.of_nat N <= 2 ^ 63 ->
  (N < fuel)%nat ->
  exists w, main env fuel = Some (Done (0, w))
            /\ submitted_pts (trace w) = Z.of_nat <$> seq 0 N.
Proof.
  intros Hok Hc HN Hf.
  destruct (main_run env
              (fun n _ _ w =>
                 pts_counter w = int64 (Z.of_nat n)
                 /\ submitted_pts (trace w) = Z.of_nat <$> seq 0 n)
              N fuel Hok Hc Hf) as (nf & now & w & Hm & [_ Hp] & Hs).
  - rewrite (initialized_eq env Hok). split; reflexivity.
  - intros n nf now w Hn Hs [Hcnt Hp].
    rewrite int64_id in Hcnt by lia.
    rewrite iteration_pts_counter, submitted_iteration, Hcnt, Hp. split.
    + f_equal. lia.
    + rewrite seq_S, fmap_app. reflexivity.
  - eexists. split; [exact Hm|].
    rewrite submitted_final by assumption. exact Hp.
Qed.

Lemma demo_captures stop open_ret : captures (demo_env stop open_ret) stop.
Proof.
  split; simpl.
  - intros i Hi. apply Nat.ltb_lt in Hi. rewrite Hi. reflexivity.
  - rewrite Nat.ltb_irrefl. discriminate.
Qed.

Lemma pts_sequence_witness :
  exists w, main (demo_env 3 0) 4 = Some (Done (0, w))
            /\ submitted_pts (trace w) = [0; 1; 2].
Proof.
  apply (pts_sequence (demo_env 3 0) 3 4).
  - reflexivity.
  - apply demo_captures.
  - simpl. lia.
  - lia.
Defined.

(** ** Frame pacing *)

Lemma deadlines_CaptureFrame env n w :
  deadlines (CaptureFrame_calls env n w) = [].
Proof. capture_cases env n w. Qed.

Lemma deadlines_iteration env n nf now w :
  deadlines (trace (emit (Call.sleep_until nf now)
                      (EncodeFrame env (CaptureFrame env n w)))) =
  deadlines (trace w) ++ [nf].
Proof.
  rewrite iteration_trace. unfold deadlines.
  rewrite !omap_app. fold deadlines.
  rewrite deadlines_CaptureFrame, omap_mux_calls by reflexivity.
  reflexivity.
Qed.

Lemma deadlines_final env w :
  init_ok env = true -> same_setup (initialized env) w ->
  deadlines (trace (destroyed (Record_flush env w))) =
  deadlines (trace w).
Proof.
  intros Hok Hs. rewrite final_trace by assumption. unfold deadlines.
  rewrite !omap_app, omap_write_calls by reflexivity.
  simpl. rewrite app_nil_r. reflexivity.
Qed.

Lemma on_schedule_start env :
  init_ok env = true ->
  on_schedule env 0 (steady_clock_now env) (initialized env).
Proof.
  intros Hok. rewrite (initialized_eq env Hok). split; simpl; [lia|reflexivity].
Qed.

Lemma on_schedule_step env n nf now w :
  on_schedule env n nf w ->
  on_schedule env (S n) (nf + FRAME_DELAY)
    (emit (Call.sleep_until (nf + FRAME_DELAY) now)
       (EncodeFrame env (CaptureFrame env n w))).
Proof.
  intros [Hnf Hd]. split.
  - lia.
  - rewrite deadlines_iteration, Hd, seq_S, fmap_app. simpl.
    unfold deadline. do 2 f_equal. lia.
Qed.

Lemma schedule_of_run env N fuel :
  init_ok env = true -> captures env N -> (N < fuel)%nat ->
  exists w, main env fuel = Some (Done (0, w))
            /\ deadlines (trace w) = deadline (steady_clock_now env) <$> seq 0 N
            /\ time_base (codec w) = {| num := 1; den := FPS |}.
Proof.
  intros Hok Hc Hf.
  destruct (main_run env (fun n nf _ w => on_schedule env n nf w)
              N fuel Hok Hc Hf) as (nf & now & w & Hm & [_ Hd] & Hs).
  - apply on_schedule_start, Hok.
  - intros n nf now w _ _ H. apply on_schedule_step, H.
  - eexists. split; [exact Hm|]. split.
    + rewrite deadlines_final by assumption. exact Hd.
    + rewrite destructor_codec, Record_flush_codec, time_base_after_send.
      rewrite (same_time_base _ _ Hs), (initialized_eq env Hok). reflexivity.
Qed.

(** C3.  In every run that passes [Initialize] and captures [N] frames,
    the deadline slept on in the iteration of number k (from 0) is the
    clock reading taken before the loop plus (k+1) times [FRAME_DELAY]:
    each deadline is the previous one plus the fixed interval.  The time
    the frames take and the lateness of the sleeps, which the statement
    leaves arbitrary, do not enter the deadlines. *)
Theorem deadline_schedule env N fuel :
  init_ok env = true -> captures env N -> (N < fuel)%nat ->
  exists w,
    main env fuel = Some (Done (0, w))
    /\ deadlines (trace w) =
       (fun k => steady_clock_now env + Z.of_nat (S k) * FRAME_DELAY)
         <$> seq 0 N.
Proof.
  intros Hok Hc Hf.
  destruct (schedule_of_run env N fuel Hok Hc Hf) as (w & Hm & Hd & _).
  exists w. split; [exact Hm|exact Hd].
Qed.

Lemma deadline_schedule_witness :
  exists w,
    main (demo_env 3 0) 4 = Some (Done (0, w))
    /\ deadlines (trace w) = [1033; 1066; 1099].
Proof.
  apply (deadline_schedule (demo_env 3 0) 3 4).
  - reflexivity.
  - apply demo_captures.
  - lia.
Defined.

(** In the concrete world the first frame takes 50 ms: the first sleep is
    asked for a deadline 17 ms in the past, and the later deadlines are
    where they would have been. *)
Example overrun_keeps_schedule :
  (fun o => (deadlines (trace (final_state o)),
             sleep_times (trace (final_state o))))
    <$> main (demo_env 3 0) 4
  = Some ([1033; 1066; 1099], [-17; 10; -18]).
Proof. vm_compute. reflexivity. Qed.

(** C10.  [FRAME_DELAY] is the integer quotient 1000/30 = 33.  In every
    run that passes [Initialize] the deadlines are 33 ms apart while the
    time base of the encoder is 1/30 s, whose tick of 1000/30 ms is not
    33 ms: three ticks are 1 ms longer than three intervals. *)
Theorem pacing_interval_truncated env N fuel :
  init_ok env = true -> captures env N -> (N < fuel)%nat ->
  FRAME_DELAY = 1000 ÷ FPS /\ FRAME_DELAY = 33
  /\ exists w,
      main env fuel = Some (Done (0, w))
      /\ deadlines (trace w) =
         (fun k => steady_clock_now env + 33 * Z.of_nat (S k)) <$> seq 0 N
      /\ time_base (codec w) = {| num := 1; den := 30 |}
      /\ ~ (inject_Z FRAME_DELAY == tick_ms (time_base (codec w)))%Q
      /\ (3 * tick_ms (time_base (codec w)) - 3 * inject_Z FRAME_DELAY == 1)%Q.
Proof.
  intros Hok Hc Hf. split; [reflexivity|]. split; [reflexivity|].
  destruct (schedule_of_run env N fuel Hok Hc Hf) as (w & Hm & Hd & Ht).
  exists w. split; [exact Hm|]. split; [|split; [exact Ht|]].
  - rewrite Hd. apply list_fmap_ext. intros _ k _. unfold deadline.
    rewrite FRAME_DELAY_eq. lia.
  - rewrite Ht. split; [|reflexivity]. discriminate.
Qed.

Lemma pacing_interval_truncated_witness :
  FRAME_DELAY = 1000 ÷ FPS /\ FRAME_DELAY = 33
  /\ exists w,
      main (demo_env 3 0) 4 = Some (Done (0, w))
      /\ deadlines (trace w) = [1033; 1066; 1099]
      /\ time_base (codec w) = {| num := 1; den := 30 |}
      /\ ~ (inject_Z FRAME_DELAY == tick_ms (time_base (codec w)))%Q
      /\ (3 * tick_ms (time_base (codec w)) - 3 * inject_Z FRAME_DELAY == 1)%Q.
Proof.
  apply (pacing_interval_truncated (demo_env 3 0) 3 4).
  - reflexivity.
  - apply demo_captures.
  - lia.
Defined.

(** ** The capture buffer *)

Lemma needed_size_fits w :
  fits_int (width w) (height w) ->
  needed_size w = width w * height w * 4.
Proof.
  intros (Hw & Hh & Hf). unfold needed_size.
  assert (0 <= width w * height w) by nia.
  rewrite (int32_id (width w * height w)) by lia.
  rewrite int32_id by lia. apply to_size_t_id. lia.
Qed.

Lemma GetDIBits_extent_eq wd ht : GetDIBits_extent wd ht = wd * ht * 4.
Proof.
  unfold GetDIBits_extent, dib_stride.
  rewrite Z.div_add_l by lia. change (31 / 32) with 0. lia.
Qed.

Lemma length_grown_buffer w :
  0 <= needed_size w ->
  Z.of_nat (length (grown_buffer w)) =
  Z.max (Z.of_nat (length (captureBuffer w))) (needed_size w).
Proof.
  intros Hn. unfold grown_buffer, undersized.
  destruct (Z.ltb_spec (Z.of_nat (length (captureBuffer w))) (needed_size w)).
  - rewrite length_resize. lia.
  - lia.
Qed.

Lemma length_CaptureFrame_buffer env n w :
  length (CaptureFrame_buffer env n w) = length (grown_buffer w).
Proof.
  unfold CaptureFrame_buffer.
  rewrite length_take, length_app, length_resize, length_drop. lia.
Qed.

Lemma pixel_reads_CaptureFrame env n w :
  pixel_reads (CaptureFrame_calls env n w) =
  [(GetDIBits_extent (width w) (height w),
    Z.of_nat (length (grown_buffer w)))].
Proof. capture_cases env n w. Qed.

Lemma resizes_CaptureFrame env n w :
  resizes (CaptureFrame_calls env n w) =
  if undersized w then [needed_size w] else [].
Proof. capture_cases env n w. Qed.

Lemma pixel_reads_iteration env n nf now w :
  pixel_reads (trace (emit (Call.sleep_until nf now)
                        (EncodeFrame env (CaptureFrame env n w)))) =
  pixel_reads (trace w)
  ++ [(GetDIBits_extent (width w) (height w),
       Z.of_nat (length (grown_buffer w)))].
Proof.
  rewrite iteration_trace. unfold pixel_reads.
  rewrite !omap_app. fold pixel_reads.
  rewrite pixel_reads_CaptureFrame, omap_mux_calls by reflexivity.
  reflexivity.
Qed.

Lemma resizes_iteration env n nf now w :
  resizes (trace (emit (Call.sleep_until nf now)
                    (EncodeFrame env (CaptureFrame env n w)))) =
  resizes (trace w) ++ if undersized w then [needed_size w] else [].
Proof.
  rewrite iteration_trace. unfold resizes.
  rewrite !omap_app. fold resizes.
  rewrite resizes_CaptureFrame, omap_mux_calls by reflexivity.
  simpl. rewrite app_nil_r. reflexivity.
Qed.

Lemma iteration_buffer env n nf now w :
  captureBuffer (emit (Call.sleep_until nf now)
                   (EncodeFrame env (CaptureFrame env n w))) =
  CaptureFrame_buffer env n w.
Proof.
  rewrite captureBuffer_emit, EncodeFrame_captureBuffer,
    CaptureFrame_captureBuffer.
  reflexivity.
Qed.

(** C5.  Let the loop of [Record] start with any capture buffer, on a
    screen whose byte count [width * height * 4] fits an [int], and
    capture [N] frames.  Every pixel read stores exactly
    [width * height * 4] bytes into a buffer that holds the larger of
    that number and the size the buffer had at the start; [resize] is
    called at most once, in the first iteration and only when the buffer
    was smaller, and then asks for exactly [width * height * 4] bytes;
    the buffer never gets shorter. *)
Theorem capture_buffer_grow_only env N fuel nf now w0 :
  captures env N -> (N < fuel)%nat -> fits_int (width w0) (height w0) ->
  let need := width w0 * height w0 * 4 in
  let len0 := Z.of_nat (length (captureBuffer w0)) in
  exists nf' w',
    Record_loop env fuel 0 nf now w0 = Some (nf', w')
    /\ pixel_reads (trace w') =
       pixel_reads (trace w0) ++ replicate N (need, Z.max len0 need)
    /\ need <= Z.max len0 need
    /\ resizes (trace w') =
       resizes (trace w0)
       ++ (if (0 <? Z.of_nat N) && (len0 <? need) then [need] else [])
    /\ Z.of_nat (length (captureBuffer w')) =
       (if (0 <? Z.of_nat N) then Z.max len0 need else len0).
Proof.
  intros Hc Hf Hfit need len0.
  assert (Hneed : forall w, same_setup w0 w -> needed_size w = need).
  { intros w [Hw Hh]. rewrite needed_size_fits; rewrite Hw, Hh;
      [reflexivity|exact Hfit]. }
  assert (Hpos : 0 <= need) by (destruct Hfit as (? & ? & _); subst need; nia).
  destruct (Record_loop_rule env
    (fun n _ _ w =>
       same_setup w0 w
       /\ pixel_reads (trace w) =
          pixel_reads (trace w0) ++ replicate n (need, Z.max len0 need)
       /\ resizes (trace w) =
          resizes (trace w0)
          ++ (if (0 <? Z.of_nat n) && (len0 <? need) then [need] else [])
       /\ Z.of_nat (length (captureBuffer w)) =
          (if (0 <? Z.of_nat n) then Z.max len0 need else len0))
    N Hc) with (fuel := fuel) (nf := nf) (now := now) (w := w0)
    as (nf' & now' & w' & Heq & _ & Hp & Hr & Hl).
  - intros n nf1 now1 w Hn (Hs & Hp & Hr & Hl).
    pose proof (Hneed w Hs) as Hnw.
    assert (Hg : Z.of_nat (length (grown_buffer w)) = Z.max len0 need).
    { rewrite length_grown_buffer by lia. rewrite Hnw, Hl.
      destruct (0 <? Z.of_nat n); lia. }
    split; [apply iteration_same_setup, Hs|].
    rewrite pixel_reads_iteration, resizes_iteration, iteration_buffer,
      length_CaptureFrame_buffer, Hg, Hp, Hr, GetDIBits_extent_eq.
    destruct Hs as [Hw Hh]. rewrite Hw, Hh. fold need.
    split; [|split].
    + rewrite <- app_assoc. f_equal.
      change [(need, Z.max len0 need)] with (replicate 1 (need, Z.max len0 need)).
      rewrite <- replicate_add. f_equal. lia.
    + rewrite <- app_assoc. f_equal. unfold undersized. rewrite Hnw, Hl.
      destruct (Z.ltb_spec 0 (Z.of_nat n)), (Z.ltb_spec 0 (Z.of_nat (S n)));
        try lia; simpl.
      * destruct (Z.ltb_spec (Z.max len0 need) need); [lia|].
        rewrite app_nil_r. reflexivity.
      * destruct (len0 <? need); reflexivity.
    + destruct (Z.ltb_spec 0 (Z.of_nat (S n))); lia.
  - exact Hf.
  - split; [apply same_setup_refl|]. simpl. rewrite !app_nil_r. auto.
  - exists nf', w'. repeat split; try assumption. lia.
Qed.

Lemma capture_buffer_grow_only_witness :
  exists nf' w',
    Record_loop (demo_env 3 0) 4 0 1000 1000 (initialized (demo_env 3 0))
    = Some (nf', w')
    /\ pixel_reads (trace w') = [(16, 16); (16, 16); (16, 16)]
    /\ 16 <= 16
    /\ resizes (trace w') = [16]
    /\ Z.of_nat (length (captureBuffer w')) = 16.
Proof.
  apply (capture_buffer_grow_only (demo_env 3 0) 3 4 1000 1000
           (initialized (demo_env 3 0))).
  - apply demo_captures.
  - lia.
  - cbv. repeat split; discriminate.
Defined.

(** ** Encoding and muxing one frame *)

Lemma pending_receive c :
  match avcodec_receive_packet c with
  | Some (p, c') => pending c = p :: pending c'
  | None => pending c = []
  end.
Proof.
  unfold avcodec_receive_packet, pending.
  destruct (cc_open c) eqn:Ho; [|reflexivity].
  destruct (cc_ready c); simpl; rewrite ?Ho; reflexivity.
Qed.

Lemma receive_drained c : avcodec_receive_packet (drained c) = None.
Proof.
  unfold drained, avcodec_receive_packet.
  destruct (cc_open c) eqn:Ho; [|rewrite Ho; reflexivity].
  cbn [cc_open cc_ready set_cc_queue]. rewrite Ho. reflexivity.
Qed.

Lemma codec_after_send_eq env f w :
  codec (avcodec_send_frame env f w) = codec_after_send env f (codec w).
Proof.
  unfold avcodec_send_frame, codec_after_send. simpl.
  destruct (cc_open (codec w)); reflexivity.
Qed.

Lemma packets_written_mux_calls env w ready :
  packets_written (mux_calls env w ready) = map (mux_one env w) ready.
Proof.
  induction ready as [|p ready IH]; [reflexivity|].
  simpl. f_equal. exact IH.
Qed.

Lemma packets_written_write_calls ready :
  packets_written (write_calls ready) = ready.
Proof.
  induction ready as [|p ready IH]; [reflexivity|].
  simpl. f_equal. exact IH.
Qed.

(** C8.  One call of [EncodeFrame] sends the frame, then receives every
    packet the encoder has ready after that send, however many (none,
    one or several), until the encoder has none left.  Each of them is
    appended to the file, in the order of arrival, with its payload as
    it was, its stream index replaced by the index of the stream, and
    its timestamps rescaled from the time base of the encoder to the
    time base of the stream: the two timestamps unless they are unset,
    the duration when it is positive. *)
Theorem encode_frame_muxes_every_packet env w :
  let ready :=
    pending (codec (avcodec_send_frame env (Some (frame_sent env w)) w)) in
  let rescale t :=
    av_rescale_q env t (time_base (codec w)) (st_time_base (strm w)) in
  let muxed :=
    map (fun p =>
           {| pts := if pts p =? AV_NOPTS_VALUE then AV_NOPTS_VALUE
                     else rescale (pts p);
              dts := if dts p =? AV_NOPTS_VALUE then AV_NOPTS_VALUE
                     else rescale (dts p);
              duration := if 0 <? duration p then rescale (duration p)
                          else duration p;
              stream_index := index (strm w);
              data := data p |})
      ready in
  written (fmt (EncodeFrame env w)) = written (fmt w) ++ muxed
  /\ packets_written (trace (EncodeFrame env w)) =
     packets_written (trace w) ++ muxed
  /\ avcodec_receive_packet (codec (EncodeFrame env w)) = None.
Proof.
  intros ready rescale muxed.
  assert (Hmux : muxed = map (mux_one env w) (EncodeFrame_packets env w)).
  { subst muxed ready rescale. rewrite codec_after_send_eq.
    fold (EncodeFrame_packets env w). apply map_ext. intros p.
    unfold mux_one, set_stream_index, av_packet_rescale_ts.
    cbn [pts dts duration stream_index data].
    destruct (Z.eqb_spec (pts p) AV_NOPTS_VALUE) as [->|_],
             (Z.eqb_spec (dts p) AV_NOPTS_VALUE) as [->|_]; reflexivity. }
  rewrite Hmux. clear Hmux muxed ready rescale.
  split; [apply EncodeFrame_written|]. split.
  - rewrite EncodeFrame_trace. unfold packets_written.
    rewrite !omap_app. fold packets_written.
    rewrite packets_written_mux_calls. cbn [omap list_omap].
    rewrite app_nil_r. reflexivity.
  - rewrite EncodeFrame_codec. apply receive_drained.
Qed.

(** With an encoder that stamps its packet 3/2/1 and numbers it 5, in a
    stream of index 0 and time base 1/15360: the packet is written with
    stamps 1536/1024/512 and stream index 0. *)
Lemma encode_frame_muxes_every_packet_witness :
  written (fmt (EncodeFrame eager_env (initialized eager_env))) =
  [{| pts := 1536; dts := 1024; duration := 512; stream_index := 0;
      data := [] |}]
  /\ packets_written (trace (EncodeFrame eager_env (initialized eager_env))) =
     [{| pts := 1536; dts := 1024; duration := 512; stream_index := 0;
         data := [] |}]
  /\ avcodec_receive_packet
       (codec (EncodeFrame eager_env (initialized eager_env))) = None.
Proof.
  exact (encode_frame_muxes_every_packet eager_env (initialized eager_env)).
Defined.

(** The encoder decides how many packets there are: any list can be the
    one a call of [EncodeFrame] has to drain. *)
Lemma any_number_of_packets (l : list AVPacket) :
  let env :=
    {| GetSystemMetrics := GetSystemMetrics (demo_env 1 0);
       GetAsyncKeyState := GetAsyncKeyState (demo_env 1 0);
       GetCursorInfo := GetCursorInfo (demo_env 1 0);
       GetIconInfo := GetIconInfo (demo_env 1 0);
       screen_bits := screen_bits (demo_env 1 0);
       steady_clock_now := 0; busy := fun _ => 0; oversleep := fun _ => 0;
       alloc_output_context_ok := true; find_encoder_ok := true;
       new_stream_ok := true; avcodec_open2_ret := 0; avio_open_ret := 0;
       mux_time_base := {| num := 1; den := 15360 |};
       encoder := fun _ => l;
       av_rescale_q := rescale_q;
       sws_convert := fun buf _ _ => buf |} in
  written (fmt (EncodeFrame env (initialized env)))
  = map (mux_one env (initialized env)) l.
Proof.
  intros env. rewrite EncodeFrame_written. reflexivity.
Qed.

(** ** The final flush *)

Lemma Record_flush_written env w :
  written (fmt (Record_flush env w)) =
  written (fmt w) ++ pending (codec (avcodec_send_frame env None w)).
Proof. rewrite Record_flush_fmt, codec_after_send_eq. reflexivity. Qed.

(** C2, on the code.  Two frames through an encoder that holds back one
    frame, into a stream whose time base is 1/15360: the packet of the
    first frame leaves [EncodeFrame] with timestamp 0 and duration 512;
    the packet of the second frame is drained by the loop at the end of
    [Record] and is written as the encoder made it, timestamp 1 and
    duration 1, where the loop of [EncodeFrame] would have written
    timestamp 512 and duration 512. *)
Theorem flush_writes_packets_unscaled :
  exists w first last,
    main (demo_env 2 0) 3 = Some (Done (0, w))
    /\ written (fmt w) = [first; last]
    /\ stamps first = (0, 0, 512)
    /\ stamps last = (1, 1, 1)
    /\ stamps (mux_one (demo_env 2 0) w last) = (512, 512, 512).
Proof.
  do 3 eexists. split; [vm_compute; reflexivity|].
  split; [vm_compute; reflexivity|]. repeat split.
Qed.

(** ** Initialization failures *)

(** The result of [Initialize] depends on four of its calls only. *)
Lemma Initialize_true_iff env :
  fst (Initialize env at_start) = true <->
  alloc_output_context_ok env = true /\ find_encoder_ok env = true
  /\ new_stream_ok env = true /\ 0 <= avio_open_ret env.
Proof.
  rewrite Initialize_result. unfold init_ok.
  rewrite !andb_true_iff, Z.leb_le. tauto.
Qed.

(** When [Initialize] fails, [main] makes no call after it but those of
    the destructor: nothing is captured, sent or written. *)
Lemma failed_Initialize_stops env fuel :
  init_ok env = false ->
  exists o, main env fuel = Some o
            /\ submitted_pts (trace (final_state o)) = []
            /\ packets_written (trace (final_state o)) = []
            /\ pixel_reads (trace (final_state o)) = []
            /\ header_written (fmt (final_state o)) = false.
Proof.
  intros H. rewrite main_eq, H. eexists. split; [reflexivity|].
  unfold init_ok in H. unfold initialized, Initialize.
  destruct (alloc_output_context_ok env); [|repeat split].
  destruct (find_encoder_ok env); [|repeat split].
  destruct (new_stream_ok env); [|repeat split].
  apply Z.leb_gt in H.
  destruct (Z.ltb_spec (avio_open_ret env) 0); [repeat split|lia].
Qed.

(** C4, on the code.  [avcodec_open2] fails (it returns -1) and the other
    calls succeed: [Initialize] returns true, [main] calls [Record], two
    frames are captured and sent to the encoder that never opened, the
    header and the trailer of the file are written, no packet is. *)
Theorem failed_codec_open_still_records :
  avcodec_open2_ret (demo_env 2 (-1)) < 0
  /\ fst (Initialize (demo_env 2 (-1)) at_start) = true
  /\ exists w,
      main (demo_env 2 (-1)) 3 = Some (Done (0, w))
      /\ cc_open (codec w) = false
      /\ submitted_pts (trace w) = [0; 1]
      /\ pixel_reads (trace w) = [(16, 16); (16, 16)]
      /\ header_written (fmt w) = true
      /\ trailer_written (fmt w) = true
      /\ written (fmt w) = [].
Proof.
  split; [reflexivity|]. split; [reflexivity|].
  eexists. split; [vm_compute; reflexivity|].
  repeat split.
Qed.

(** The size of the display is not checked either: with a screen size of
    0 (the value [GetSystemMetrics] returns when it fails) [Initialize]
    still returns true. *)
Lemma Initialize_ignores_display_size env :
  init_ok env = true -> GetSystemMetrics env SM_CXSCREEN = 0 ->
  fst (Initialize env at_start) = true /\ width (initialized env) = 0.
Proof.
  intros Hok H0. rewrite Initialize_result, (initialized_eq env Hok).
  simpl. rewrite H0. split; [exact Hok|reflexivity].
Qed.

(** ** Leaving at once *)

(** C6.  When [Initialize] succeeds and the escape key is seen at the
    first poll, no frame is captured or sent, and [main] still sends the
    null frame, writes every packet the encoder hands out after it,
    writes the trailer and returns: the file has its header, those
    packets and its trailer. *)
Theorem immediate_exit_still_finalizes env fuel :
  init_ok env = true -> GetAsyncKeyState env 0 <> 0 -> (0 < fuel)%nat ->
  let flushed :=
    pending (codec (avcodec_send_frame env None (initialized env))) in
  exists w,
    main env fuel = Some (Done (0, w))
    /\ trace w =
       trace (initialized env)
       ++ [Call.av_packet_alloc; Call.avcodec_send_frame None]
       ++ write_calls flushed
       ++ [Call.av_packet_free; Call.av_write_trailer;
           Call.avcodec_free_context; Call.avformat_free_context;
           Call.sws_freeContext; Call.av_frame_free]
    /\ submitted_pts (trace w) = []
    /\ pixel_reads (trace w) = []
    /\ written (fmt w) = flushed
    /\ header_written (fmt w) = true
    /\ trailer_written (fmt w) = true.
Proof.
  intros Hok Hkey Hf flushed. subst flushed.
  rewrite codec_after_send_eq. fold (flush_packets env (initialized env)).
  exists (destroyed (Record_flush env (initialized env))).
  pose proof (final_trace env _ Hok (same_setup_refl _)) as Ht.
  split; [|split; [exact Ht|]].
  - rewrite main_eq, Hok. unfold Record.
    destruct fuel as [|fuel]; [lia|]. cbn [Record_loop].
    apply Z.eqb_neq in Hkey. rewrite Hkey.
    rewrite (destructor_after_flush env _ Hok (same_setup_refl _)).
    reflexivity.
  - rewrite Ht, final_fmt. unfold submitted_pts, pixel_reads.
    rewrite !omap_app, !omap_write_calls by reflexivity.
    rewrite (initialized_eq env Hok). repeat split.
Qed.

Lemma immediate_exit_still_finalizes_witness :
  exists w,
    main (demo_env 0 0) 1 = Some (Done (0, w))
    /\ trace w =
       trace (initialized (demo_env 0 0))
       ++ [Call.av_packet_alloc; Call.avcodec_send_frame None;
           Call.av_packet_free; Call.av_write_trailer;
           Call.avcodec_free_context; Call.avformat_free_context;
           Call.sws_freeContext; Call.av_frame_free]
    /\ submitted_pts (trace w) = []
    /\ pixel_reads (trace w) = []
    /\ written (fmt w) = []
    /\ header_written (fmt w) = true
    /\ trailer_written (fmt w) = true.
Proof.
  apply (immediate_exit_still_finalizes (demo_env 0 0) 1).
  - reflexivity.
  - discriminate.
  - lia.
Defined.

(** ** The exit code *)

(** Where [main] returns, it returns 0. *)
Lemma returned_code_is_zero env fuel code w :
  main env fuel = Some (Done (code, w)) -> code = 0.
Proof.
  rewrite main_eq. unfold exits_with, and_then.
  destruct (init_ok env); [destruct (Record env fuel (initialized env))|];
    try discriminate;
    match goal with
    | |- context [ScreenRecorder_destructor ?x] =>
        destruct (ScreenRecorder_destructor x)
    end; congruence.
Qed.

(** [main] returns, with 0, after a recording that the escape key ends. *)
Lemma returns_after_recording env N fuel :
  init_ok env = true -> captures env N -> (N < fuel)%nat ->
  exists w, main env fuel = Some (Done (0, w)).
Proof.
  intros Hok Hc Hf.
  destruct (main_run env (fun _ _ _ _ => True) N fuel Hok Hc Hf I)
    as (_ & _ & w & Hm & _); [trivial|].
  eexists. exact Hm.
Qed.

(** When [Initialize] fails at its last check, every member has been
    assigned: the destructor frees the four objects and [main] returns,
    with 0. *)
Lemma main_without_file env fuel :
  early_checks_ok env = true -> init_ok env = false ->
  main env fuel = Some (Done (0, destroyed (initialized env)))
  /\ trace (initialized env) =
     [Call.av_log_set_level; Call.avformat_alloc_output_context2;
      Call.avformat_new_stream; Call.avcodec_alloc_context3;
      Call.avcodec_open2; Call.sws_getContext; Call.av_frame_alloc;
      Call.av_frame_get_buffer; Call.avio_open].
Proof.
  intros He H. rewrite main_eq, H.
  unfold init_ok in H. unfold early_checks_ok in He. rewrite He in H.
  apply andb_true_iff in He. destruct He as [He Hs].
  apply andb_true_iff in He. destruct He as [Ha Hc].
  apply Z.leb_gt in H.
  assert (Hv : sws_ctx (initialized env) = Valid
               /\ codec_ctx (initialized env) = Valid
               /\ fmt_ctx (initialized env) = Valid
               /\ frame (initialized env) = Valid
               /\ trace (initialized env) =
                  [Call.av_log_set_level; Call.avformat_alloc_output_context2;
                   Call.avformat_new_stream; Call.avcodec_alloc_context3;
                   Call.avcodec_open2; Call.sws_getContext;
                   Call.av_frame_alloc; Call.av_frame_get_buffer;
                   Call.avio_open]).
  { unfold initialized, Initialize. rewrite Ha, Hc, Hs.
    destruct (Z.ltb_spec (avio_open_ret env) 0); [|lia].
    repeat split. }
  destruct Hv as (H1 & H2 & H3 & H4 & H5).
  rewrite destructor_defined by assumption.
  split; [reflexivity|exact H5].
Qed.

(** C9, on the code.  No H.264 encoder is found: [Initialize] returns
    false at its second check, [main] goes on to [return 0], and the
    destructor of [recorder], after freeing the format context, tests
    [frame], which neither the constructor nor [Initialize] has
    assigned.  From that read on the program has no defined behaviour,
    and so no exit code, where the claim has 0. *)
Theorem early_failure_has_no_exit_code :
  fst (Initialize no_encoder_env at_start) = false
  /\ exists w,
      main no_encoder_env 0 = Some (Undefined w)
      /\ frame w = Indeterminate
      /\ trace w = [Call.av_log_set_level;
                    Call.avformat_alloc_output_context2;
                    Call.avformat_free_context].
Proof.
  split; [reflexivity|]. eexists.
  split; [vm_compute; reflexivity|]. split; reflexivity.
Qed.

(** ** Lifetimes of the resources *)

Lemma count_app r l1 l2 :
  count r (l1 ++ l2) = (count r l1 + count r l2)%nat.
Proof. unfold count. rewrite list.filter_app, length_app. reflexivity. Qed.

Lemma acquired_app tr1 tr2 :
  acquired (tr1 ++ tr2) = acquired tr1 ++ acquired tr2.
Proof. apply bind_app. Qed.

Lemma released_app tr1 tr2 :
  released (tr1 ++ tr2) = released tr1 ++ released tr2.
Proof. apply bind_app. Qed.

Lemma acquired_mux_calls env w ready : acquired (mux_calls env w ready) = [].
Proof. induction ready as [|p ready IH]; [reflexivity|exact IH]. Qed.

Lemma released_mux_calls env w ready : released (mux_calls env w ready) = [].
Proof. induction ready as [|p ready IH]; [reflexivity|exact IH]. Qed.

Lemma acquired_write_calls ready : acquired (write_calls ready) = [].
Proof. induction ready as [|p ready IH]; [reflexivity|exact IH]. Qed.

Lemma released_write_calls ready : released (write_calls ready) = [].
Proof. induction ready as [|p ready IH]; [reflexivity|exact IH]. Qed.

Ltac cursor_cases env n w :=
  unfold CaptureFrame_calls, DrawCursor_calls, frame_acquired, frame_released,
    cursor_drawn;
  destruct (GetCursorInfo env n) as [?ci|];
    [destruct (Z.land (ci_flags _) CURSOR_SHOWING =? 0);
     [|destruct (GetIconInfo env n)]|];
    destruct (undersized w).

(** The calls of one iteration, with whatever packets it drains. *)
Lemma acquired_iteration env n w ready nf now :
  acquired (CaptureFrame_calls env n w
            ++ [Call.sws_scale;
                Call.avcodec_send_frame (Some (pts_counter w));
                Call.av_packet_alloc]
            ++ mux_calls env w ready
            ++ [Call.av_packet_free; Call.sleep_until nf now])
  = frame_acquired env n.
Proof.
  rewrite !acquired_app, acquired_mux_calls.
  cursor_cases env n w; reflexivity.
Qed.

Lemma released_iteration env n w ready nf now :
  released (CaptureFrame_calls env n w
            ++ [Call.sws_scale;
                Call.avcodec_send_frame (Some (pts_counter w));
                Call.av_packet_alloc]
            ++ mux_calls env w ready
            ++ [Call.av_packet_free; Call.sleep_until nf now])
  = frame_released env n.
Proof.
  rewrite !released_app, released_mux_calls.
  cursor_cases env n w; reflexivity.
Qed.

Lemma frame_resources_transient env k r :
  long_lived r = true ->
  count r (frame_acquired env k) = 0%nat
  /\ count r (frame_released env k) = 0%nat.
Proof.
  intros Hr. unfold frame_acquired, frame_released.
  destruct r; try discriminate Hr; destruct (cursor_drawn env k);
    split; reflexivity.
Qed.

(** After an iteration the buffer is as large as the next one needs it. *)
Lemma sized_after_iteration env n nf now w :
  undersized (emit (Call.sleep_until nf now)
                (EncodeFrame env (CaptureFrame env n w))) = false.
Proof.
  pose proof (iteration_same_setup env n nf now w w (same_setup_refl w))
    as Hs.
  unfold undersized, needed_size.
  rewrite iteration_buffer, length_CaptureFrame_buffer,
    (same_width _ _ Hs), (same_height _ _ Hs).
  fold (needed_size w).
  assert (0 <= needed_size w)
    by (unfold needed_size, to_size_t; apply Z.mod_pos_bound; lia).
  rewrite length_grown_buffer by assumption.
  apply Z.ltb_ge. lia.
Qed.

Lemma resizes_final env w :
  init_ok env = true -> same_setup (initialized env) w ->
  resizes (trace (destroyed (Record_flush env w))) = resizes (trace w).
Proof.
  intros Hok Hs. rewrite final_trace by assumption. unfold resizes.
  rewrite !omap_app, omap_write_calls by reflexivity.
  simpl. rewrite app_nil_r. reflexivity.
Qed.

Lemma frame_by_frame_start env :
  init_ok env = true -> frame_by_frame env 0 (initialized env).
Proof.
  intros Hok. exists []. rewrite app_nil_r.
  split; [reflexivity|]. split; [reflexivity|].
  split; [intros k calls Hk; discriminate Hk|].
  split; [intros r _; split; reflexivity|].
  left. rewrite (initialized_eq env Hok). reflexivity.
Qed.

Lemma frame_by_frame_step env n nf now w :
  frame_by_frame env n w ->
  frame_by_frame env (S n)
    (emit (Call.sleep_until nf now) (EncodeFrame env (CaptureFrame env n w))).
Proof.
  intros (its & Ht & Hl & Hit & Hll & Hrz).
  pose proof (iteration_trace env n nf now w) as Hnew.
  pose proof (resizes_iteration env n nf now w) as Hrs.
  pose proof (sized_after_iteration env n nf now w) as Hsz.
  remember (EncodeFrame_packets env (CaptureFrame env n w)) as ready
    eqn:Hready.
  clear Hready.
  remember (emit (Call.sleep_until nf now)
              (EncodeFrame env (CaptureFrame env n w))) as w' eqn:Hw'.
  clear Hw'.
  remember (CaptureFrame_calls env n w
            ++ [Call.sws_scale;
                Call.avcodec_send_frame (Some (pts_counter w));
                Call.av_packet_alloc]
            ++ mux_calls env w ready
            ++ [Call.av_packet_free; Call.sleep_until nf now]) as calls
    eqn:Hcalls.
  assert (Ha : acquired calls = frame_acquired env n)
    by (subst calls; apply acquired_iteration).
  assert (Hr : released calls = frame_released env n)
    by (subst calls; apply released_iteration).
  clear Hcalls.
  exists (its ++ [calls]).
  rewrite concat_app. cbn [concat]. rewrite app_nil_r.
  split; [rewrite Hnew, Ht, <- app_assoc; reflexivity|].
  split; [rewrite length_app, Hl; simpl; lia|].
  split; [|split].
  - intros k c Hk. apply lookup_app_Some in Hk.
    destruct Hk as [Hk|[Hge Hk]]; [apply Hit, Hk|].
    apply list_lookup_singleton_Some in Hk. destruct Hk as [Hk <-].
    replace k with n by lia. split; assumption.
  - intros r Hlong. destruct (Hll r Hlong) as [H1 H2].
    destruct (frame_resources_transient env n r Hlong) as [H3 H4].
    rewrite acquired_app, released_app, !count_app, Ha, Hr, H1, H2, H3, H4.
    split; reflexivity.
  - rewrite Hrs. destruct Hrz as [Hrz|[Hrz Hu]].
    + rewrite Hrz. destruct (undersized w); [right|left];
        [split; [reflexivity|exact Hsz]|reflexivity].
    + rewrite Hu, app_nil_r. right. split; assumption.
Qed.

(** C7, as the code has it.  Take a run in which [Initialize] passes its
    first three checks, so that it allocates all it allocates; [N] is
    the number of frames the run records, none when the output file
    cannot be opened.  The format context, the codec context, the scaler
    context and the encoder frame are each created once, by
    [Initialize], released once, by the destructor, and neither created
    nor released in between, and the capture buffer is resized at most
    once in the whole run.  In between, the calls split into one stretch
    per iteration and the final flush: the iteration of number k creates
    a screen DC, a memory DC, a bitmap, a brush, the two icon bitmaps
    when it draws the cursor, and a packet, and releases every one of
    them before it ends; the final flush creates and frees one more
    packet. *)
Theorem resource_lifetimes env N fuel :
  early_checks_ok env = true -> records env N -> (N < fuel)%nat ->
  exists w iterations flush,
    main env fuel = Some (Done (0, w))
    /\ trace w =
       trace (initialized env) ++ concat iterations ++ flush
       ++ destructor_calls
    /\ (forall r, long_lived r = true ->
          count r (acquired (trace (initialized env))) = 1%nat
          /\ count r (released (trace (initialized env))) = 0%nat
          /\ count r (acquired (concat iterations ++ flush)) = 0%nat
          /\ count r (released (concat iterations ++ flush)) = 0%nat
          /\ count r (acquired destructor_calls) = 0%nat
          /\ count r (released destructor_calls) = 1%nat)
    /\ length iterations = N
    /\ (forall k calls, iterations !! k = Some calls ->
          acquired calls = frame_acquired env k
          /\ released calls = frame_released env k)
    /\ acquired flush = (if init_ok env then [Packet] else [])
    /\ released flush = (if init_ok env then [Packet] else [])
    /\ (length (resizes (trace w)) <= 1)%nat.
Proof.
  intros He Hrec Hf. unfold records in Hrec.
  destruct (init_ok env) eqn:Hok.
  - destruct (main_run env (fun n _ _ w => frame_by_frame env n w)
                N fuel Hok Hrec Hf)
      as (nf & now & w & Hm & (its & Ht & Hl & Hit & Hll & Hrz) & Hs).
    + apply frame_by_frame_start, Hok.
    + intros n nf now w _ _ H. apply frame_by_frame_step, H.
    + exists (destroyed (Record_flush env w)), its,
        ([Call.av_packet_alloc; Call.avcodec_send_frame None]
         ++ write_calls (flush_packets env w)
         ++ [Call.av_packet_free; Call.av_write_trailer]).
      assert (Hfa : acquired
                      ([Call.av_packet_alloc; Call.avcodec_send_frame None]
                       ++ write_calls (flush_packets env w)
                       ++ [Call.av_packet_free; Call.av_write_trailer])
                    = [Packet])
        by (rewrite !acquired_app, acquired_write_calls; reflexivity).
      assert (Hfr : released
                      ([Call.av_packet_alloc; Call.avcodec_send_frame None]
                       ++ write_calls (flush_packets env w)
                       ++ [Call.av_packet_free; Call.av_write_trailer])
                    = [Packet])
        by (rewrite !released_app, released_write_calls; reflexivity).
      split; [exact Hm|]. split.
      { rewrite final_trace, Ht by assumption. unfold destructor_calls.
        rewrite <- !app_assoc. reflexivity. }
      split.
      { intros r Hr. destruct (Hll r Hr) as [H1 H2].
        rewrite acquired_app, released_app, !count_app, Hfa, Hfr, H1, H2.
        rewrite (initialized_eq env Hok).
        destruct r; try discriminate Hr; repeat split. }
      split; [exact Hl|]. split; [exact Hit|].
      split; [exact Hfa|]. split; [exact Hfr|].
      rewrite resizes_final by assumption.
      destruct Hrz as [->|[-> _]]; simpl; lia.
  - subst N. destruct (main_without_file env fuel He Hok) as [Hm Htr].
    exists (destroyed (initialized env)), [], [].
    split; [exact Hm|]. split; [reflexivity|].
    split; [intros r Hr; rewrite Htr;
            destruct r; try discriminate Hr; repeat split|].
    split; [reflexivity|].
    split; [intros k calls Hk; discriminate Hk|].
    split; [reflexivity|]. split; [reflexivity|].
    rewrite destructor_trace. unfold resizes. rewrite omap_app, Htr.
    simpl. lia.
Qed.

Lemma resource_lifetimes_witness :
  exists w iterations flush,
    main (demo_env 2 0) 3 = Some (Done (0, w))
    /\ trace w =
       trace (initialized (demo_env 2 0)) ++ concat iterations ++ flush
       ++ destructor_calls
    /\ (forall r, long_lived r = true ->
          count r (acquired (trace (initialized (demo_env 2 0)))) = 1%nat
          /\ count r (released (trace (initialized (demo_env 2 0)))) = 0%nat
          /\ count r (acquired (concat iterations ++ flush)) = 0%nat
          /\ count r (released (concat iterations ++ flush)) = 0%nat
          /\ count r (acquired destructor_calls) = 0%nat
          /\ count r (released destructor_calls) = 1%nat)
    /\ length iterations = 2%nat
    /\ (forall k calls, iterations !! k = Some calls ->
          acquired calls = frame_acquired (demo_env 2 0) k
          /\ released calls = frame_released (demo_env 2 0) k)
    /\ acquired flush = [Packet]
    /\ released flush = [Packet]
    /\ (length (resizes (trace w)) <= 1)%nat.
Proof.
  apply (resource_lifetimes (demo_env 2 0) 2 3).
  - reflexivity.
  - apply (demo_captures 2 0).
  - lia.
Defined.

(** C7, as stated, fails on the code: the single iteration of a run that
    captures one frame creates seven resources and releases seven. *)
Lemma capture_loop_creates_resources :
  exists tr,
    loop_trace (demo_env 1 0) 2 = Some tr
    /\ acquired tr = [ScreenDC; MemoryDC; GdiBitmap; GdiBrush;
                      IconBitmap; IconBitmap; Packet]
    /\ released tr = [GdiBrush; IconBitmap; IconBitmap; GdiBitmap;
                      MemoryDC; ScreenDC; Packet]
    /\ ~ no_churn tr.
Proof.
  eexists. split; [vm_compute; reflexivity|].
  split; [reflexivity|]. split; [reflexivity|].
  intros [H _]. discriminate H.
Qed.

(** * Further properties of the code *)

(** ** Traces of one iteration and of the end of a run, under any reading *)

Section Readings.
Context {A : Type} (f : Call.t -> option A).

Lemma omap_iteration env n nf now w :
  omap f (trace (emit (Call.sleep_until nf now)
                   (EncodeFrame env (CaptureFrame env n w)))) =
  omap f (trace w)
  ++ omap f (CaptureFrame_calls env n w)
  ++ omap f [Call.sws_scale; Call.avcodec_send_frame (Some (pts_counter w));
             Call.av_packet_alloc]
  ++ omap f (mux_calls env w (EncodeFrame_packets env (CaptureFrame env n w)))
  ++ omap f [Call.av_packet_free; Call.sleep_until nf now].
Proof. rewrite iteration_trace, !omap_app. reflexivity. Qed.

Lemma omap_final env w :
  init_ok env = true -> same_setup (initialized env) w ->
  omap f (trace (destroyed (Record_flush env w))) =
  omap f (trace w)
  ++ omap f [Call.av_packet_alloc; Call.avcodec_send_frame None]
  ++ omap f (write_calls (flush_packets env w))
  ++ omap f [Call.av_packet_free; Call.av_write_trailer;
             Call.avcodec_free_context; Call.avformat_free_context;
             Call.sws_freeContext; Call.av_frame_free].
Proof.
  intros Hok Hs. rewrite final_trace, !omap_app by assumption. reflexivity.
Qed.
End Readings.

(** Readings of the short, explicit parts of a trace are computed where
    they stand. *)
Ltac read_calls :=
  repeat match goal with
         | |- context [omap ?f (?a :: ?l)] =>
             let v := eval cbn [omap list_omap] in (omap f (a :: l)) in
             progress (replace (omap f (a :: l)) with v by reflexivity)
         end;
  rewrite ?app_nil_l, ?app_nil_r.

Lemma mux_one_ext env w w' :
  strm w' = strm w -> time_base (codec w') = time_base (codec w) ->
  mux_one env w' = mux_one env w.
Proof. unfold mux_one. intros -> ->. reflexivity. Qed.

Lemma CaptureFrame_fmt env n w : fmt (CaptureFrame env n w) = fmt w.
Proof. rewrite CaptureFrame_eq. reflexivity. Qed.

Lemma CaptureFrame_codec env n w : codec (CaptureFrame env n w) = codec w.
Proof. rewrite CaptureFrame_eq. reflexivity. Qed.

Lemma iteration_written env n nf now w :
  written (fmt (emit (Call.sleep_until nf now)
                  (EncodeFrame env (CaptureFrame env n w)))) =
  written (fmt w)
  ++ map (mux_one env w) (EncodeFrame_packets env (CaptureFrame env n w)).
Proof.
  rewrite fmt_emit, EncodeFrame_written, CaptureFrame_fmt.
  rewrite (mux_one_ext env w (CaptureFrame env n w));
    [reflexivity|rewrite CaptureFrame_eq; reflexivity
    |rewrite CaptureFrame_codec; reflexivity].
Qed.

Lemma iteration_codec env n nf now w :
  codec (emit (Call.sleep_until nf now)
           (EncodeFrame env (CaptureFrame env n w))) =
  drained (codec_after_send env
             (Some (frame_sent env (CaptureFrame env n w))) (codec w)).
Proof.
  rewrite codec_emit, EncodeFrame_codec, CaptureFrame_codec. reflexivity.
Qed.

(** ** Order of the sends *)

Lemma sends_CaptureFrame env n w : sends (CaptureFrame_calls env n w) = [].
Proof. capture_cases env n w. Qed.

Lemma sends_iteration env n nf now w :
  sends (trace (emit (Call.sleep_until nf now)
                  (EncodeFrame env (CaptureFrame env n w)))) =
  sends (trace w) ++ [Some (pts_counter w)].
Proof.
  rewrite iteration_trace.
  generalize (EncodeFrame_packets env (CaptureFrame env n w)).
  intros ready.
  pose proof (sends_CaptureFrame env n w) as H1.
  unfold sends in *.
  rewrite !omap_app, H1, omap_mux_calls by reflexivity.
  read_calls. reflexivity.
Qed.

Lemma sends_final env w :
  init_ok env = true -> same_setup (initialized env) w ->
  sends (trace (destroyed (Record_flush env w))) =
  sends (trace w) ++ [None].
Proof.
  intros Hok Hs. unfold sends.
  rewrite omap_final, omap_write_calls by first [assumption|reflexivity].
  read_calls. reflexivity.
Qed.

(** X1.  In every run that passes [Initialize] and captures [N] frames
    (at most 2^63), the calls of [avcodec_send_frame] are, in this order,
    the frames with timestamps 0, ..., N-1 and then the null frame: the
    null frame is sent once, and nothing is sent after it. *)
Theorem null_frame_sent_once_and_last env N fuel :
  init_ok env = true -> captures env N -> Z.of_nat N <= 2 ^ 63 ->
  (N < fuel)%nat ->
  exists w, main env fuel = Some (Done (0, w))
            /\ sends (trace w) =
               ((fun k => Some (Z.of_nat k)) <$> seq 0 N) ++ [None].
Proof.
  intros Hok Hc HN Hf.
  destruct (main_run env
              (fun n _ _ w =>
                 pts_counter w = int64 (Z.of_nat n)
                 /\ sends (trace w) = (fun k => Some (Z.of_nat k)) <$> seq 0 n)
              N fuel Hok Hc Hf) as (nf & now & w & Hm & [_ Hp] & Hs).
  - rewrite (initialized_eq env Hok). split; reflexivity.
  - intros n nf now w Hn Hs [Hcnt Hp].
    rewrite int64_id in Hcnt by lia.
    rewrite iteration_pts_counter, sends_iteration, Hcnt, Hp. split.
    + f_equal. lia.
    + rewrite seq_S, fmap_app. reflexivity.
  - eexists. split; [exact Hm|].
    rewrite sends_final, Hp by assumption. reflexivity.
Qed.

Lemma null_frame_sent_once_and_last_witness :
  exists w, main (demo_env 3 0) 4 = Some (Done (0, w))
            /\ sends (trace w) = [Some 0; Some 1; Some 2; None].
Proof.
  apply (null_frame_sent_once_and_last (demo_env 3 0) 3 4).
  - reflexivity.
  - apply demo_captures.
  - simpl. lia.
  - lia.
Defined.

(** ** Order of the operations on the file *)

Lemma file_ops_CaptureFrame env n w :
  file_ops (CaptureFrame_calls env n w) = [].
Proof. capture_cases env n w. Qed.

Lemma file_ops_mux_calls env w ready :
  file_ops (mux_calls env w ready) = PacketOut <$> map (mux_one env w) ready.
Proof.
  induction ready as [|p ready IH]; [reflexivity|].
  cbn. f_equal. exact IH.
Qed.

Lemma file_ops_write_calls ready :
  file_ops (write_calls ready) = PacketOut <$> ready.
Proof.
  induction ready as [|p ready IH]; [reflexivity|].
  cbn. f_equal. exact IH.
Qed.

Lemma file_ops_iteration env n nf now w :
  file_ops (trace (emit (Call.sleep_until nf now)
                     (EncodeFrame env (CaptureFrame env n w)))) =
  file_ops (trace w)
  ++ (PacketOut <$> map (mux_one env w)
                      (EncodeFrame_packets env (CaptureFrame env n w))).
Proof.
  rewrite iteration_trace.
  generalize (EncodeFrame_packets env (CaptureFrame env n w)).
  intros ready.
  pose proof (file_ops_CaptureFrame env n w) as H1.
  pose proof (file_ops_mux_calls env w ready) as H2.
  unfold file_ops in *. rewrite !omap_app, H1, H2.
  read_calls. reflexivity.
Qed.

Lemma file_ops_final env w :
  init_ok env = true -> same_setup (initialized env) w ->
  file_ops (trace (destroyed (Record_flush env w))) =
  file_ops (trace w) ++ (PacketOut <$> flush_packets env w) ++ [Trailer].
Proof.
  intros Hok Hs.
  pose proof (file_ops_write_calls (flush_packets env w)) as H1.
  unfold file_ops in *. rewrite omap_final, H1 by assumption.
  read_calls. reflexivity.
Qed.

Lemma final_written env w :
  written (fmt (destroyed (Record_flush env w))) =
  written (fmt w) ++ flush_packets env w.
Proof. rewrite final_fmt. reflexivity. Qed.

(** X2.  In every run that passes [Initialize] and captures [N] frames,
    the header is written once and before every packet, the trailer once
    and after every packet, and the packets the file holds at exit are
    those of the calls of [av_interleaved_write_frame], in the order of
    the calls. *)
Theorem file_written_in_order env N fuel :
  init_ok env = true -> captures env N -> (N < fuel)%nat ->
  exists w, main env fuel = Some (Done (0, w))
            /\ file_ops (trace w) =
               [Header] ++ (PacketOut <$> written (fmt w)) ++ [Trailer].
Proof.
  intros Hok Hc Hf.
  destruct (main_run env
              (fun n _ _ w =>
                 file_ops (trace w) = Header :: (PacketOut <$> written (fmt w)))
              N fuel Hok Hc Hf) as (nf & now & w & Hm & Hp & Hs).
  - rewrite (initialized_eq env Hok). reflexivity.
  - intros n nf now w Hn Hs Hp.
    rewrite iteration_written, file_ops_iteration, Hp, fmap_app.
    reflexivity.
  - eexists. split; [exact Hm|].
    rewrite final_written, file_ops_final, Hp, fmap_app by assumption.
    rewrite <- !app_assoc. reflexivity.
Qed.

Lemma file_written_in_order_witness :
  exists w, main (demo_env 2 0) 3 = Some (Done (0, w))
            /\ file_ops (trace w) =
               [Header] ++ (PacketOut <$> written (fmt w)) ++ [Trailer].
Proof.
  apply (file_written_in_order (demo_env 2 0) 2 3).
  - reflexivity.
  - apply demo_captures.
  - lia.
Defined.

(** ** The only way out of the loop *)

Lemma Record_loop_runs_on env :
  forall fuel n nf now w,
    (forall i, (n <= i < n + fuel)%nat -> GetAsyncKeyState env i = 0) ->
    Record_loop env fuel n nf now w = None.
Proof.
  induction fuel as [|fuel IH]; intros n nf now w Hk; [reflexivity|].
  cbn [Record_loop]. rewrite (Hk n) by lia. cbn [Z.eqb].
  apply IH. intros i Hi. apply Hk. lia.
Qed.

(** X3.  Once [Initialize] has succeeded, the escape key is the only way
    out: as long as every poll returns 0, [main] does not return,
    whatever the capture, the encoder and the muxer do. *)
Theorem no_exit_without_escape env fuel :
  init_ok env = true ->
  (forall i, (i < fuel)%nat -> GetAsyncKeyState env i = 0) ->
  main env fuel = None.
Proof.
  intros Hok Hk. rewrite main_eq, Hok. unfold Record.
  rewrite Record_loop_runs_on; [reflexivity|].
  intros i Hi. apply Hk. lia.
Qed.

Lemma no_exit_without_escape_witness : main (demo_env 5 (-1)) 5 = None.
Proof.
  apply (no_exit_without_escape (demo_env 5 (-1)) 5).
  - reflexivity.
  - intros i Hi. simpl. apply Nat.ltb_lt in Hi. rewrite Hi. reflexivity.
Defined.

(** ** Pacing without overrun *)

Lemma sleep_times_CaptureFrame env n w :
  sleep_times (CaptureFrame_calls env n w) = [].
Proof. capture_cases env n w. Qed.

Lemma sleep_times_iteration env n nf now w :
  sleep_times (trace (emit (Call.sleep_until nf now)
                        (EncodeFrame env (CaptureFrame env n w)))) =
  sleep_times (trace w) ++ [nf - now].
Proof.
  rewrite iteration_trace.
  generalize (EncodeFrame_packets env (CaptureFrame env n w)).
  intros ready.
  pose proof (sleep_times_CaptureFrame env n w) as H1.
  unfold sleep_times in *.
  rewrite !omap_app, H1, omap_mux_calls by reflexivity.
  read_calls. reflexivity.
Qed.

Lemma sleep_times_final env w :
  init_ok env = true -> same_setup (initialized env) w ->
  sleep_times (trace (destroyed (Record_flush env w))) =
  sleep_times (trace w).
Proof.
  intros Hok Hs. unfold sleep_times.
  rewrite omap_final, omap_write_calls by first [assumption|reflexivity].
  read_calls. reflexivity.
Qed.

(** X4.  When no frame takes longer than [FRAME_DELAY] and every sleep
    returns at its deadline, the loop is on time: the sleep asked for in
    the iteration of number k is [FRAME_DELAY] minus the time the frame
    took, never negative, so that every iteration starts exactly at the
    deadline of the one before. *)
Theorem on_time_without_overrun env N fuel :
  init_ok env = true -> captures env N -> (N < fuel)%nat ->
  (forall k, (k < N)%nat ->
             0 <= busy env k <= FRAME_DELAY /\ oversleep env k = 0) ->
  exists w,
    main env fuel = Some (Done (0, w))
    /\ sleep_times (trace w) = (fun k => FRAME_DELAY - busy env k) <$> seq 0 N
    /\ Forall (fun t => 0 <= t) (sleep_times (trace w)).
Proof.
  intros Hok Hc Hf Hb.
  destruct (main_run env
              (fun n nf now w =>
                 now = nf
                 /\ sleep_times (trace w) =
                    (fun k => FRAME_DELAY - busy env k) <$> seq 0 n)
              N fuel Hok Hc Hf) as (nf & now & w & Hm & [_ Hp] & Hs).
  - rewrite (initialized_eq env Hok). split; reflexivity.
  - intros n nf now w Hn Hs [Hnow Hp]. destruct (Hb n Hn) as [Hbn Ho].
    split; [lia|].
    rewrite sleep_times_iteration, Hp, seq_S, fmap_app.
    f_equal. cbn [fmap list_fmap Nat.add]. f_equal. lia.
  - assert (Ht : sleep_times
                   (trace (destroyed (Record_flush env w)))
                 = (fun k => FRAME_DELAY - busy env k) <$> seq 0 N).
    { rewrite sleep_times_final by assumption. exact Hp. }
    eexists. split; [exact Hm|]. split; [exact Ht|].
    rewrite Ht. apply Forall_fmap, Forall_forall. intros k Hk.
    apply in_seq in Hk. unfold compose. destruct (Hb k) as [? _]; lia.
Qed.

Lemma on_time_without_overrun_witness :
  exists w,
    main (punctual_env 3) 4 = Some (Done (0, w))
    /\ sleep_times (trace w) = [13; 13; 13]
    /\ Forall (fun t => 0 <= t) (sleep_times (trace w)).
Proof.
  apply (on_time_without_overrun (punctual_env 3) 3 4).
  - reflexivity.
  - apply (demo_captures 3 0).
  - lia.
  - intros k _. cbv. split; [split; discriminate|reflexivity].
Defined.

(** ** Every packet of the encoder reaches the file *)



Lemma send_to_open_encoder env f c :
  cc_open c = true -> cc_ready c = [] ->
  pending (codec_after_send env f c) = encoder env (cc_sent c ++ [f])
  /\ cc_open (drained (codec_after_send env f c)) = true
  /\ cc_ready (drained (codec_after_send env f c)) = []
  /\ cc_sent (drained (codec_after_send env f c)) = cc_sent c ++ [f].
Proof.
  intros Ho Hr. unfold pending, drained, codec_after_send. rewrite Ho, Hr.
  cbn [cc_open cc_ready cc_sent set_cc_queue]. rewrite Ho.
  cbn [cc_open cc_ready cc_sent set_cc_queue app]. auto.
Qed.

Lemma send_to_closed_encoder env f c :
  cc_open c = false ->
  pending (codec_after_send env f c) = []
  /\ drained (codec_after_send env f c) = c.
Proof.
  intros Ho. unfold pending, drained, codec_after_send. rewrite Ho, Ho. auto.
Qed.


Lemma open_after_Initialize env w :
  init_ok env = true -> same_setup (initialized env) w ->
  cc_open (codec w) = (0 <=? avcodec_open2_ret env).
Proof.
  intros Hok Hs. rewrite (same_cc_open _ _ Hs), (initialized_eq env Hok).
  reflexivity.
Qed.



(** ** An encoder that did not open *)

(** X6.  When [avcodec_open2] failed and [Initialize] succeeded all the
    same, the run goes its whole length, hands every frame and the null
    frame to the encoder, and produces a file that holds a header and a
    trailer and not one packet. *)
Theorem unopened_encoder_gives_empty_file env N fuel :
  init_ok env = true -> captures env N -> (N < fuel)%nat ->
  avcodec_open2_ret env < 0 ->
  exists w,
    main env fuel = Some (Done (0, w))
    /\ length (sends (trace w)) = S N
    /\ written (fmt w) = []
    /\ file_ops (trace w) = [Header; Trailer].
Proof.
  intros Hok Hc Hf Hfail.
  assert (Hclosed : forall w, same_setup (initialized env) w ->
                              cc_open (codec w) = false).
  { intros w Hs. rewrite (open_after_Initialize env w Hok Hs).
    apply Z.leb_gt, Hfail. }
  destruct (main_run env
              (fun n _ _ w =>
                 length (sends (trace w)) = n /\ written (fmt w) = []
                 /\ file_ops (trace w) = [Header])
              N fuel Hok Hc Hf)
    as (nf & now & w & Hm & (Hl & Hw & Hfo) & Hs).
  - rewrite (initialized_eq env Hok). repeat split.
  - intros n nf now w Hn Hs (Hl & Hw & Hfo).
    rewrite sends_iteration, iteration_written, file_ops_iteration.
    unfold EncodeFrame_packets. rewrite CaptureFrame_codec.
    generalize (frame_sent env (CaptureFrame env n w)). intros f.
    destruct (send_to_closed_encoder env (Some f) (codec w) (Hclosed w Hs))
      as [Hp _].
    rewrite Hp, length_app, Hl, Hw, Hfo. repeat split. simpl. lia.
  - exists (destroyed (Record_flush env w)).
    split; [exact Hm|].
    rewrite sends_final, final_written, file_ops_final by assumption.
    unfold flush_packets.
    destruct (send_to_closed_encoder env None (codec w) (Hclosed w Hs))
      as [Hp _].
    rewrite Hp, length_app, Hl, Hw, Hfo. repeat split. simpl. lia.
Qed.

Lemma unopened_encoder_gives_empty_file_witness :
  exists w,
    main (demo_env 2 (-1)) 3 = Some (Done (0, w))
    /\ length (sends (trace w)) = 3%nat
    /\ written (fmt w) = []
    /\ file_ops (trace w) = [Header; Trailer].
Proof.
  apply (unopened_encoder_gives_empty_file (demo_env 2 (-1)) 2 3).
  - reflexivity.
  - apply demo_captures.
  - lia.
  - simpl. lia.
Defined.

(** ** A failed [Initialize] *)

(** The state a failure of one of the first three checks leaves. *)
Lemma early_failure_state env :
  early_checks_ok env = false ->
  sws_ctx (initialized env) = Null /\ codec_ctx (initialized env) = Null
  /\ frame (initialized env) = Indeterminate
  /\ fmt_ctx (initialized env)
     = (if alloc_output_context_ok env then Valid else Null)
  /\ trace (initialized env)
     = [Call.av_log_set_level; Call.avformat_alloc_output_context2]
       ++ (if alloc_output_context_ok env && find_encoder_ok env
           then [Call.avformat_new_stream] else []).
Proof.
  intros H. unfold early_checks_ok in H. unfold initialized, Initialize.
  destruct (alloc_output_context_ok env); [|repeat split].
  destruct (find_encoder_ok env); [|repeat split].
  destruct (new_stream_ok env); [discriminate H|repeat split].
Qed.

(** The destructor on a state in which only the format context may have
    been allocated and [frame] was never assigned. *)
Lemma destructor_unset_frame w :
  sws_ctx w = Null -> codec_ctx w = Null -> frame w = Indeterminate ->
  fmt_ctx w <> Indeterminate ->
  exists w',
    ScreenRecorder_destructor w = Undefined w'
    /\ frame w' = Indeterminate
    /\ trace w' =
       trace w ++ (if is_null (fmt_ctx w) then []
                   else [Call.avformat_free_context]).
Proof.
  intros Hs Hc Hf Hm.
  destruct w as [? ? s c m ? f ? ? ? ? ? ? tr]; simpl in Hs, Hc, Hf, Hm; subst.
  destruct m; [congruence| |]; eexists; split; try reflexivity;
    split; try reflexivity.
  simpl. rewrite app_nil_r. reflexivity.
Qed.

(** X7.  When the output context was allocated and a later check of
    [Initialize] fails, [main] neither captures nor sends nor touches the
    file, and the destructor releases what [Initialize] had created so
    far: the format context, the codec context and the scaler context
    are each released as often as created.  [main] then returns 0 when
    the failing check was the last one, and otherwise comes to the test
    of [frame], which was never assigned. *)
Theorem failed_Initialize_releases_contexts env fuel :
  alloc_output_context_ok env = true -> init_ok env = false ->
  exists w,
    main env fuel =
      Some (if early_checks_ok env then Done (0, w) else Undefined w)
    /\ file_ops (trace w) = [] /\ sends (trace w) = []
    /\ bitmaps (trace w) = []
    /\ forall r, r ∈ [FormatContext; CodecContext; ScalerContext] ->
                 count r (acquired (trace w)) = count r (released (trace w)).
Proof.
  intros Ha H.
  assert (Hr : forall (P : Resource -> Prop),
             P FormatContext -> P CodecContext -> P ScalerContext ->
             forall r, r ∈ [FormatContext; CodecContext; ScalerContext] -> P r).
  { intros P H1 H2 H3 r Hr. apply list_elem_of_In in Hr.
    destruct Hr as [<-|[<-|[<-|[]]]]; assumption. }
  destruct (early_checks_ok env) eqn:He.
  - destruct (main_without_file env fuel He H) as [Hm Htr].
    exists (destroyed (initialized env)). split; [exact Hm|].
    rewrite destructor_trace, Htr. repeat split. apply Hr; reflexivity.
  - destruct (early_failure_state env He) as (H1 & H2 & H3 & H4 & H5).
    rewrite Ha in H4, H5.
    destruct (destructor_unset_frame (initialized env) H1 H2 H3)
      as (w' & Hd & _ & Ht); [congruence|].
    rewrite H4, H5 in Ht. cbn [is_null andb] in Ht.
    exists w'. rewrite main_eq, H, Hd, Ht. split; [reflexivity|].
    destruct (find_encoder_ok env); repeat split; apply Hr; reflexivity.
Qed.

Lemma failed_Initialize_releases_contexts_witness :
  exists w,
    main no_file_env 0 = Some (Done (0, w))
    /\ file_ops (trace w) = [] /\ sends (trace w) = []
    /\ bitmaps (trace w) = []
    /\ forall r, r ∈ [FormatContext; CodecContext; ScalerContext] ->
                 count r (acquired (trace w)) = count r (released (trace w)).
Proof.
  apply (failed_Initialize_releases_contexts no_file_env 0); reflexivity.
Defined.

(** X8.  [frame] is assigned only after the first three checks of
    [Initialize]: when one of them fails, no encoder frame has been
    allocated, and the destructor, which [main] runs next, comes to test
    a member that neither the constructor nor [Initialize] has set;
    what [main] does from there on is not defined. *)
Theorem early_failure_leaves_frame_unset env fuel :
  early_checks_ok env = false ->
  frame (initialized env) = Indeterminate
  /\ count EncoderFrame (acquired (trace (initialized env))) = 0%nat
  /\ exists w,
      ScreenRecorder_destructor (initialized env) = Undefined w
      /\ frame w = Indeterminate
      /\ main env fuel = Some (Undefined w).
Proof.
  intros H.
  assert (Hok : init_ok env = false).
  { unfold init_ok. unfold early_checks_ok in H. rewrite H. reflexivity. }
  destruct (early_failure_state env H) as (H1 & H2 & H3 & H4 & H5).
  destruct (destructor_unset_frame (initialized env) H1 H2 H3)
    as (w' & Hd & Hf & _);
    [rewrite H4; destruct (alloc_output_context_ok env); discriminate|].
  split; [exact H3|]. split.
  - rewrite H5.
    destruct (alloc_output_context_ok env && find_encoder_ok env);
      reflexivity.
  - exists w'. rewrite main_eq, Hok, Hd. repeat split. exact Hf.
Qed.

Lemma early_failure_leaves_frame_unset_witness :
  frame (initialized no_encoder_env) = Indeterminate
  /\ count EncoderFrame (acquired (trace (initialized no_encoder_env))) = 0%nat
  /\ exists w,
      ScreenRecorder_destructor (initialized no_encoder_env) = Undefined w
      /\ frame w = Indeterminate
      /\ main no_encoder_env 0 = Some (Undefined w).
Proof.
  apply (early_failure_leaves_frame_unset no_encoder_env 0). reflexivity.
Defined.

(** ** What is captured *)

Lemma bitmaps_CaptureFrame env n w :
  bitmaps (CaptureFrame_calls env n w) = [(width w, height w)].
Proof. capture_cases env n w. Qed.

Lemma bitmaps_iteration env n nf now w :
  bitmaps (trace (emit (Call.sleep_until nf now)
                    (EncodeFrame env (CaptureFrame env n w)))) =
  bitmaps (trace w) ++ [(width w, height w)].
Proof.
  rewrite iteration_trace.
  generalize (EncodeFrame_packets env (CaptureFrame env n w)).
  intros ready.
  pose proof (bitmaps_CaptureFrame env n w) as H1.
  unfold bitmaps in *.
  rewrite !omap_app, H1, omap_mux_calls by reflexivity.
  read_calls. reflexivity.
Qed.

Lemma bitmaps_final env w :
  init_ok env = true -> same_setup (initialized env) w ->
  bitmaps (trace (destroyed (Record_flush env w))) =
  bitmaps (trace w).
Proof.
  intros Hok Hs. unfold bitmaps.
  rewrite omap_final, omap_write_calls by first [assumption|reflexivity].
  read_calls. reflexivity.
Qed.

(** X9.  The size of the screen is read once, in [Initialize]: every
    frame of the run is captured in a bitmap of that size, one bitmap
    per frame, whatever happens to the screen afterwards. *)
Theorem every_frame_has_startup_size env N fuel :
  init_ok env = true -> captures env N -> (N < fuel)%nat ->
  exists w,
    main env fuel = Some (Done (0, w))
    /\ bitmaps (trace w) =
       replicate N (int32 (GetSystemMetrics env SM_CXSCREEN),
                    int32 (GetSystemMetrics env SM_CYSCREEN)).
Proof.
  intros Hok Hc Hf.
  destruct (main_run env
              (fun n _ _ w =>
                 bitmaps (trace w) =
                 replicate n (int32 (GetSystemMetrics env SM_CXSCREEN),
                              int32 (GetSystemMetrics env SM_CYSCREEN)))
              N fuel Hok Hc Hf) as (nf & now & w & Hm & Hp & Hs).
  - rewrite (initialized_eq env Hok). reflexivity.
  - intros n nf now w Hn Hs Hp.
    rewrite bitmaps_iteration, Hp, (same_width _ _ Hs), (same_height _ _ Hs),
      (initialized_eq env Hok).
    cbn [width height].
    change [?x] with (replicate 1 x) at 1.
    rewrite <- replicate_add. f_equal. lia.
  - eexists. split; [exact Hm|].
    rewrite bitmaps_final by assumption. exact Hp.
Qed.

Lemma every_frame_has_startup_size_witness :
  exists w,
    main (demo_env 3 0) 4 = Some (Done (0, w))
    /\ bitmaps (trace w) = [(2, 2); (2, 2); (2, 2)].
Proof.
  apply (every_frame_has_startup_size (demo_env 3 0) 3 4).
  - reflexivity.
  - apply demo_captures.
  - lia.
Defined.

(** ** The cursor *)

Lemma draws_CaptureFrame env n w :
  draws (CaptureFrame_calls env n w) = option_list (cursor_at env n).
Proof. unfold cursor_at. capture_cases env n w. Qed.

Lemma draws_iteration env n nf now w :
  draws (trace (emit (Call.sleep_until nf now)
                  (EncodeFrame env (CaptureFrame env n w)))) =
  draws (trace w) ++ option_list (cursor_at env n).
Proof.
  rewrite iteration_trace.
  generalize (EncodeFrame_packets env (CaptureFrame env n w)).
  intros ready.
  pose proof (draws_CaptureFrame env n w) as H1.
  unfold draws in *.
  rewrite !omap_app, H1, omap_mux_calls by reflexivity.
  read_calls. reflexivity.
Qed.

Lemma draws_final env w :
  init_ok env = true -> same_setup (initialized env) w ->
  draws (trace (destroyed (Record_flush env w))) =
  draws (trace w).
Proof.
  intros Hok Hs. unfold draws.
  rewrite omap_final, omap_write_calls by first [assumption|reflexivity].
  read_calls. reflexivity.
Qed.

(** X10.  The cursor is drawn into exactly those frames in whose capture
    [GetCursorInfo] succeeds with the cursor showing and [GetIconInfo]
    succeeds, at the position of the cursor less the hot spot of its
    icon; the other frames are captured without a cursor and without any
    icon call. *)
Theorem cursor_drawn_at_hotspot env N fuel :
  init_ok env = true -> captures env N -> (N < fuel)%nat ->
  exists w,
    main env fuel = Some (Done (0, w))
    /\ draws (trace w) = omap (cursor_at env) (seq 0 N).
Proof.
  intros Hok Hc Hf.
  destruct (main_run env
              (fun n _ _ w => draws (trace w) = omap (cursor_at env) (seq 0 n))
              N fuel Hok Hc Hf) as (nf & now & w & Hm & Hp & Hs).
  - rewrite (initialized_eq env Hok). reflexivity.
  - intros n nf now w Hn Hs Hp.
    rewrite draws_iteration, Hp, seq_S, omap_app. f_equal.
  - eexists. split; [exact Hm|].
    rewrite draws_final by assumption. exact Hp.
Qed.

Lemma cursor_drawn_at_hotspot_witness :
  exists w,
    main (demo_env 3 0) 4 = Some (Done (0, w))
    /\ draws (trace w) = [(1, 1); (1, 1)].
Proof.
  apply (cursor_drawn_at_hotspot (demo_env 3 0) 3 4).
  - reflexivity.
  - apply demo_captures.
  - lia.
Defined.

(** ** The frames the encoder sees *)

Lemma frm_emit e w : frm (emit e w) = frm w.
Proof. reflexivity. Qed.

Lemma CaptureFrame_frm env n w : frm (CaptureFrame env n w) = frm w.
Proof. rewrite CaptureFrame_eq. reflexivity. Qed.

Lemma EncodeFrame_frm env w : frm (EncodeFrame env w) = frame_sent env w.
Proof. rewrite EncodeFrame_eq. reflexivity. Qed.

Lemma frame_sent_CaptureFrame env n w :
  frame_sent env (CaptureFrame env n w) =
  set_f_pts (pts_counter w)
    (set_f_data (sws_convert env (CaptureFrame_buffer env n w)
                   (int32 (width w * 4)) (height w)) (frm w)).
Proof. unfold frame_sent. rewrite CaptureFrame_eq. reflexivity. Qed.

(** A buffer that is not larger than the screen holds, after
    [CaptureFrame], the bytes of the screen and nothing else. *)
Lemma CaptureFrame_buffer_exact env n w :
  fits_int (width w) (height w) ->
  Z.of_nat (length (captureBuffer w)) <= width w * height w * 4 ->
  CaptureFrame_buffer env n w =
  list.resize (Z.to_nat (width w * height w * 4)) Byte.x00 (screen_bits env n).
Proof.
  intros Hfit Hlen.
  assert (Hg : length (grown_buffer w) = Z.to_nat (width w * height w * 4)).
  { pose proof (length_grown_buffer w) as H.
    rewrite (needed_size_fits w Hfit) in H.
    destruct Hfit as (? & ? & ?). lia. }
  unfold CaptureFrame_buffer. rewrite GetDIBits_extent_eq, Hg.
  apply take_app_length'. rewrite length_resize. reflexivity.
Qed.

(** X11.  When the encoder opened and the byte count of the screen fits
    an [int], the encoder has been handed, at exit, exactly this: for
    every k below [N] the frame with timestamp k, the format and size
    set by [Initialize], and the conversion of the screen bytes of the
    capture of number k (no frame lags behind or carries bytes of
    another capture), and after them the null frame. *)
Theorem encoder_sees_each_capture env N fuel :
  init_ok env = true -> captures env N -> (N < fuel)%nat ->
  0 <= avcodec_open2_ret env -> Z.of_nat N <= 2 ^ 63 ->
  fits_int (int32 (GetSystemMetrics env SM_CXSCREEN))
           (int32 (GetSystemMetrics env SM_CYSCREEN)) ->
  exists w,
    main env fuel = Some (Done (0, w))
    /\ cc_sent (codec w) =
       ((fun k => Some (frame_of_capture env k)) <$> seq 0 N) ++ [None].
Proof.
  intros Hok Hc Hf Hopen HN Hfit.
  set (wd := int32 (GetSystemMetrics env SM_CXSCREEN)) in *.
  set (ht := int32 (GetSystemMetrics env SM_CYSCREEN)) in *.
  assert (Hdim : forall w, same_setup (initialized env) w ->
                           width w = wd /\ height w = ht).
  { intros w Hs. rewrite (same_width _ _ Hs), (same_height _ _ Hs),
      (initialized_eq env Hok). split; reflexivity. }
  destruct (main_run env
              (fun n _ _ w =>
                 (cc_open (codec w) = true /\ cc_ready (codec w) = []
                  /\ cc_sent (codec w) =
                     (fun k => Some (frame_of_capture env k)) <$> seq 0 n)
                 /\ pts_counter w = int64 (Z.of_nat n)
                 /\ Z.of_nat (length (captureBuffer w)) <= wd * ht * 4
                 /\ (f_format (frm w), f_width (frm w), f_height (frm w))
                    = (AV_PIX_FMT_YUV420P, wd, ht))
              N fuel Hok Hc Hf)
    as (nf & now & w & Hm & ((Ho & Hr & Hsent) & _) & Hs).
  - rewrite (initialized_eq env Hok).
    cbn [codec cc_open cc_ready cc_sent pts_counter captureBuffer frm
         f_format f_width f_height length].
    repeat split.
    + apply Z.leb_le, Hopen.
    + destruct Hfit as (? & ? & ?). change (Z.of_nat 0) with 0. nia.
  - intros n nf now w Hn Hs ((Ho & Hr & Hsent) & Hcnt & Hlen & Hfrm).
    destruct (Hdim w Hs) as [Hw Hh].
    rewrite int64_id in Hcnt by lia.
    assert (Hframe : frame_sent env (CaptureFrame env n w)
                     = frame_of_capture env n).
    { rewrite frame_sent_CaptureFrame, CaptureFrame_buffer_exact, Hw, Hh, Hcnt
        by (rewrite ?Hw, ?Hh; assumption).
      injection Hfrm as Hf1 Hf2 Hf3.
      unfold set_f_pts, set_f_data, frame_of_capture.
      cbn [f_format f_width f_height f_pts f_data].
      rewrite Hf1, Hf2, Hf3. reflexivity. }
    rewrite iteration_codec, iteration_pts_counter, iteration_buffer,
      length_CaptureFrame_buffer, Hframe, Hcnt.
    rewrite frm_emit, EncodeFrame_frm, Hframe.
    destruct (send_to_open_encoder env (Some (frame_of_capture env n))
                (codec w) Ho Hr) as (_ & Ho' & Hr' & Hs').
    rewrite Ho', Hr', Hs', Hsent. repeat split.
    + rewrite seq_S, fmap_app. reflexivity.
    + f_equal. lia.
    + pose proof (length_grown_buffer w) as Hg.
      rewrite needed_size_fits, Hw, Hh in Hg
        by (rewrite Hw, Hh; assumption).
      destruct Hfit as (? & ? & ?). lia.
  - exists (destroyed (Record_flush env w)).
    split; [exact Hm|].
    rewrite destructor_codec, Record_flush_codec.
    destruct (send_to_open_encoder env None (codec w) Ho Hr)
      as (_ & _ & _ & Hs').
    rewrite Hs', Hsent. reflexivity.
Qed.

Lemma encoder_sees_each_capture_witness :
  exists w,
    main (demo_env 2 0) 3 = Some (Done (0, w))
    /\ cc_sent (codec w) =
       [Some (frame_of_capture (demo_env 2 0) 0);
        Some (frame_of_capture (demo_env 2 0) 1); None].
Proof.
  apply (encoder_sees_each_capture (demo_env 2 0) 2 3).
  - reflexivity.
  - apply demo_captures.
  - lia.
  - simpl. lia.
  - simpl. lia.
  - cbv. repeat split; discriminate.
Defined.
